(** * Dry-ice-cleaning backend: slot allocation and points economy

    A shallow embedding of the booking, pricing, points-ledger and
    purchase-reconciliation code of the backend, and the properties of it
    that the specification states.

    Modelling conventions
    - A JavaScript [Date] is its time value: a [Z] of milliseconds since
      the epoch.  The server runs in the UTC zone (the container image sets
      no time zone), so the local-time methods ([setHours], [getDay],
      [getMonth], [setMonth]) coincide with their UTC versions.
    - JavaScript numbers that hold points and prices are integers ([Z]);
      the two pricing multipliers are rationals ([Q]).
    - A MongoDB collection is a list of documents; the [_id] of a document
      is its position in the list (documents are never deleted by the code
      modelled here).  Users and packs are finite maps from their id.
    - An [await] on a write to the store can reject.  The state records how
      many more writes succeed ([writesLeft]); [None] is a store that never
      fails. *)

From Stdlib Require Import ZArith QArith Qround List String Ascii Bool Lia.
From stdpp Require Import base option list sorting gmap strings pretty.
Import ListNotations.

Local Open Scope string_scope.
Local Open Scope Z_scope.

(* ===================================================================== *)
(** * utils/dateUtils.ts *)
(* ===================================================================== *)

Module DateUtils.

(** A [Date]: milliseconds since 1970-01-01T00:00:00Z. *)
Definition Date := Z.

Definition msPerDay : Z := 86400000.
Definition msPerHour : Z := 3600000.

(** ECMAScript [Day(t)] and [TimeWithinDay(t)]. *)
Definition Day (t : Date) : Z := t / msPerDay.
Definition TimeWithinDay (t : Date) : Z := t mod msPerDay.

(** Proleptic Gregorian calendar: the civil date (year, month 1..12,
    day 1..31) of a day number, and back. *)
Definition civilFromDays (days : Z) : Z * Z * Z :=
  let z := days + 719468 in
  let era := z / 146097 in
  let doe := z - era * 146097 in
  let yoe := (doe - doe / 1460 + doe / 36524 - doe / 146096) / 365 in
  let doy := doe - (365 * yoe + yoe / 4 - yoe / 100) in
  let mp := (5 * doy + 2) / 153 in
  let d := doy - (153 * mp + 2) / 5 + 1 in
  let m := if mp <? 10 then mp + 3 else mp - 9 in
  ((if m <=? 2 then yoe + era * 400 + 1 else yoe + era * 400), m, d).

Definition daysFromCivil (y m d : Z) : Z :=
  let y' := if m <=? 2 then y - 1 else y in
  let era := y' / 400 in
  let yoe := y' - era * 400 in
  let doy := (153 * (if 2 <? m then m - 3 else m + 9) + 2) / 5 + d - 1 in
  let doe := yoe * 365 + yoe / 4 - yoe / 100 + doy in
  era * 146097 + doe - 719468.

Definition getFullYear (t : Date) : Z := fst (fst (civilFromDays (Day t))).
(** [getMonth] is zero-based, as in JavaScript. *)
Definition getMonth (t : Date) : Z := snd (fst (civilFromDays (Day t))) - 1.
Definition getDate (t : Date) : Z := snd (civilFromDays (Day t)).
(** [getDay]: 0 is Sunday, 6 is Saturday; the epoch was a Thursday. *)
Definition getDay (t : Date) : Z := (Day t + 4) mod 7.

(** ECMAScript [MakeDay(year, month, date)] with a zero-based month that
    may lie outside 0..11 and a day of month that may overflow. *)
Definition MakeDay (year month date : Z) : Z :=
  daysFromCivil (year + month / 12) (month mod 12 + 1) 1 + date - 1.

(** [d.setHours(h, m, s, ms)] *)
Definition setHours (t : Date) (h m s ms : Z) : Date :=
  Day t * msPerDay + ((h * 60 + m) * 60 + s) * 1000 + ms.

(** [d.setMonth(month)] *)
Definition setMonth (t : Date) (month : Z) : Date :=
  MakeDay (getFullYear t) month (getDate t) * msPerDay + TimeWithinDay t.

(** Decimal digits, for [toISOString]. *)
Definition digit (n : Z) : ascii := ascii_of_nat (48 + Z.to_nat (n mod 10)).

Fixpoint digits (width : nat) (n : Z) : string :=
  match width with
  | O => EmptyString
  | S w => digits w (n / 10) ++ String (digit n) EmptyString
  end.

(** [date.toISOString().split('T')[0]]: YYYY-MM-DD, with the expanded
    six-digit signed year outside 0..9999. *)
Definition isoDateString (t : Date) : string :=
  let '(y, m, d) := civilFromDays (Day t) in
  let year :=
    if (0 <=? y) && (y <=? 9999) then digits 4 y
    else if y <? 0 then "-" ++ digits 6 (- y)
    else "+" ++ digits 6 y in
  year ++ "-" ++ digits 2 m ++ "-" ++ digits 2 d.

Definition danishHolidays2025 : list string :=
  [ "2025-01-01"; "2025-04-17"; "2025-04-18"; "2025-04-21";
    "2025-05-16"; "2025-05-29"; "2025-06-05"; "2025-06-09";
    "2025-12-24"; "2025-12-25"; "2025-12-26"; "2025-12-31" ].

Inductive DateType := weekday | weekend | holiday.

(** [Array.prototype.includes] on strings. *)
Definition includes (l : list string) (s : string) : bool :=
  existsb (String.eqb s) l.

(** [getDateType], with the holiday list it consults made explicit. *)
Definition classify (holidays : list string) (date : Date) : DateType :=
  let dateString := isoDateString date in
  if includes holidays dateString then holiday
  else
    let dayOfWeek := getDay date in
    if (dayOfWeek =? 0) || (dayOfWeek =? 6) then weekend
    else weekday.

Definition getDateType (date : Date) : DateType :=
  classify danishHolidays2025 date.

Definition isWeekend (date : Date) : bool :=
  let dayOfWeek := getDay date in (dayOfWeek =? 0) || (dayOfWeek =? 6).

Definition isDanishHoliday (date : Date) : bool :=
  includes danishHolidays2025 (isoDateString date).

Definition addMonths (date : Date) (months : Z) : Date :=
  setMonth date (getMonth date + months).

Definition getTimeSlots : list string :=
  [ "14:00-16:00"; "16:00-18:00"; "18:00-20:00"; "20:00-22:00" ].

(** [Number(s)] on the pieces that [timeSlot.split(':')] yields: a run of
    decimal digits is its value; anything else is NaN ([None]). *)
Definition digitValue (c : ascii) : option Z :=
  let n := Z.of_nat (nat_of_ascii c) in
  if (48 <=? n) && (n <=? 57) then Some (n - 48) else None.

Fixpoint numberFrom (acc : Z) (s : string) : option Z :=
  match s with
  | EmptyString => Some acc
  | String c rest =>
      match digitValue c with
      | Some v => numberFrom (10 * acc + v) rest
      | None => None
      end
  end.

Definition Number (s : string) : option Z := numberFrom 0 s.

(** The first piece of [s.split(':')]. *)
Fixpoint beforeColon (s : string) : string :=
  match s with
  | EmptyString => EmptyString
  | String c rest =>
      if Ascii.eqb c ":"%char then EmptyString else String c (beforeColon rest)
  end.

(** [createDateTimeFromSlot]; [None] when the start hour is NaN (both
    dates are then invalid). *)
Definition createDateTimeFromSlot (date : Date) (timeSlot : string)
  : option (Date * Date) :=
  match Number (beforeColon timeSlot) with
  | Some startHour =>
      let startTime := setHours date startHour 0 0 0 in
      let endTime := setHours startTime (startHour + 2) 0 0 0 in
      Some (startTime, endTime)
  | None => None
  end.

(** A [Date] from a civil date at midnight UTC, for examples. *)
Definition ymd (y m d : Z) : Date := daysFromCivil y m d * msPerDay.

End DateUtils.

(* ===================================================================== *)
(** * services/pricingService.ts *)
(* ===================================================================== *)

Module PricingService.
Import DateUtils.

Inductive ServiceType := basic | deluxe.

Record PricingConfig := {
  cfg_basic : Z;
  cfg_deluxe : Z;
  weekendMultiplier : Q;
  holidayMultiplier : Q
}.

Definition PRICING_CONFIG : PricingConfig :=
  {| cfg_basic := 1000;
     cfg_deluxe := 1400;
     weekendMultiplier := 3 # 2;
     holidayMultiplier := 2 # 1 |}.

Definition basePriceOf (serviceType : ServiceType) : Z :=
  match serviceType with
  | basic => cfg_basic PRICING_CONFIG
  | deluxe => cfg_deluxe PRICING_CONFIG
  end.

(** [Math.round]: the nearest integer, halves towards plus infinity. *)
Definition Math_round (x : Q) : Z := Qfloor (x + (1 # 2)).

Definition calculateAppointmentPrice (serviceType : ServiceType)
    (appointmentDate : Date) : Z :=
  let basePrice := basePriceOf serviceType in
  match getDateType appointmentDate with
  | weekend => Math_round (inject_Z basePrice * weekendMultiplier PRICING_CONFIG)
  | holiday => Math_round (inject_Z basePrice * holidayMultiplier PRICING_CONFIG)
  | weekday => basePrice
  end.

End PricingService.

(* ===================================================================== *)
(** * models/: the documents of the store *)
(* ===================================================================== *)

(** models/User.ts *)
Module UserModel.
Record IUser := {
  email : string;
  totalPoints : Z;
  role : string;
  isActive : bool
}.

Definition withTotalPoints (u : IUser) (n : Z) : IUser :=
  {| email := email u; totalPoints := n; role := role u; isActive := isActive u |}.

(** Schema validation run by [save]: [totalPoints: { min: 0 }]. *)
Definition validate (u : IUser) : bool := 0 <=? totalPoints u.
End UserModel.

(** models/Appointment.ts *)
Module AppointmentModel.
Import DateUtils PricingService.

Inductive Status := pending | confirmed | in_progress | completed | cancelled.

#[global] Instance Status_eq_dec : EqDecision Status.
Proof. solve_decision. Defined.

Record IAppointment := {
  userId : nat;
  serviceType : ServiceType;
  appointmentDate : Date;
  timeSlot : string;
  startTime : Date;
  endTime : Date;
  location : string;
  status : Status;
  price : Z;
  notes : option string
}.

Definition withStatus (a : IAppointment) (s : Status) : IAppointment :=
  {| userId := userId a; serviceType := serviceType a;
     appointmentDate := appointmentDate a; timeSlot := timeSlot a;
     startTime := startTime a; endTime := endTime a; location := location a;
     status := s; price := price a; notes := notes a |}.

Definition withNotes (a : IAppointment) (n : option string) : IAppointment :=
  {| userId := userId a; serviceType := serviceType a;
     appointmentDate := appointmentDate a; timeSlot := timeSlot a;
     startTime := startTime a; endTime := endTime a; location := location a;
     status := status a; price := price a; notes := n |}.

(** [status: { $in: ['pending', 'confirmed', 'in_progress'] }] *)
Definition isActiveStatus (s : Status) : bool :=
  match s with
  | pending | confirmed | in_progress => true
  | completed | cancelled => false
  end.

(** Schema validation run by [save]: [price: { min: 0 }]. *)
Definition validate (a : IAppointment) : bool := 0 <=? price a.

(** The unique index of the schema:
    key [{ appointmentDate: 1, timeSlot: 1, status: 1 }], with
    [partialFilterExpression: { status: { $in: [pending, confirmed, in_progress] } }]. *)
Definition partialFilterExpression (a : IAppointment) : bool :=
  isActiveStatus (status a).

Definition sameIndexKey (a b : IAppointment) : bool :=
  (appointmentDate a =? appointmentDate b)
  && String.eqb (timeSlot a) (timeSlot b)
  && bool_decide (status a = status b).

(** Would document [a] collide in the index with one of [docs]?  Only
    documents that satisfy the partial filter are indexed. *)
Definition duplicateKey (docs : list IAppointment) (a : IAppointment) : bool :=
  partialFilterExpression a
  && existsb (fun b => partialFilterExpression b && sameIndexKey a b) docs.
End AppointmentModel.

(** models/Pack.ts *)
Module PackModel.
Import PricingService.
Record IPack := {
  name : string;
  priceInDKK : Z;
  pointsIncluded : Z;
  bonusPoints : Z;
  freeServices : list (ServiceType * Z);
  isActive : bool
}.

(** The virtual [totalPoints]. *)
Definition totalPoints (p : IPack) : Z := pointsIncluded p + bonusPoints p.
End PackModel.

(** models/Purchase.ts *)
Module PurchaseModel.
Import PricingService.

Inductive Status := pending | processing | succeeded | failed | canceled.

#[global] Instance Status_eq_dec : EqDecision Status.
Proof. solve_decision. Defined.

Record IPurchase := {
  userId : nat;
  packId : nat;
  stripePaymentIntentId : string;
  amount : Z;
  status : Status;
  pointsAwarded : Z;
  bonusPointsAwarded : Z;
  serviceCreditsAwarded : list (ServiceType * Z)
}.

Definition withStatus (p : IPurchase) (s : Status) : IPurchase :=
  {| userId := userId p; packId := packId p;
     stripePaymentIntentId := stripePaymentIntentId p; amount := amount p;
     status := s; pointsAwarded := pointsAwarded p;
     bonusPointsAwarded := bonusPointsAwarded p;
     serviceCreditsAwarded := serviceCreditsAwarded p |}.

Definition withAwards (p : IPurchase) (pts bonus : Z)
    (credits : list (ServiceType * Z)) : IPurchase :=
  {| userId := userId p; packId := packId p;
     stripePaymentIntentId := stripePaymentIntentId p; amount := amount p;
     status := status p; pointsAwarded := pts;
     bonusPointsAwarded := bonus;
     serviceCreditsAwarded := credits |}.

(** Schema validation run by [save]: [amount: { min: 0 }]. *)
Definition validate (p : IPurchase) : bool := 0 <=? amount p.
End PurchaseModel.

(** The payment processor's view of a payment intent. *)
Module Stripe.
Inductive IntentStatus :=
  | requires_payment_method | requires_confirmation | requires_action
  | processing | requires_capture | canceled | succeeded.

#[global] Instance IntentStatus_eq_dec : EqDecision IntentStatus.
Proof. solve_decision. Defined.

(** The webhook events the handler distinguishes, each carrying the id of
    its payment intent; the signature has been verified. *)
Inductive Event :=
  | payment_intent_succeeded (id : string)
  | payment_intent_payment_failed (id : string)
  | payment_intent_canceled (id : string)
  | payment_intent_requires_action (id : string)
  | unhandled (type : string).
End Stripe.

(* ===================================================================== *)
(** * The store, the environment and the monad of request handlers *)
(* ===================================================================== *)

Module Runtime.
Import DateUtils.

Record Db := {
  users : gmap nat UserModel.IUser;
  packs : gmap nat PackModel.IPack;
  appointments : list AppointmentModel.IAppointment;
  purchases : list PurchaseModel.IPurchase
}.

(** What a handler did to the outside: every write to the store and every
    call to the payment processor, in order. *)
Inductive Effect :=
  | AppointmentSaved (id : nat) (s : AppointmentModel.Status)
  | PurchaseSaved (id : nat) (s : PurchaseModel.Status)
  | PurchaseStatusUpdated (intent : string) (s : PurchaseModel.Status)
  | UserPointsIncremented (id : nat) (delta : Z)
  | UserPointsSet (id : nat) (total : Z)
  | StripeRetrieved (intent : string).

Record World := {
  db : Db;
  now : Date;
  stripeIntents : gmap string Stripe.IntentStatus;
  writesLeft : option nat;
  log : list Effect
}.

Inductive Exn :=
  | MongoError
  | DuplicateKeyError
  | ValidationError
  | TypeError
  | StripeError
  | Error (msg : string).

Inductive Outcome (A : Type) :=
  | Returned (a : A)
  | Thrown (e : Exn).
Arguments Returned {A} a.
Arguments Thrown {A} e.

Definition M (A : Type) : Type := World -> Outcome A * World.

Definition ret {A} (a : A) : M A := fun w => (Returned a, w).
Definition throw {A} (e : Exn) : M A := fun w => (Thrown e, w).
Definition bind {A B} (m : M A) (k : A -> M B) : M B :=
  fun w => match m w with
           | (Returned a, w') => k a w'
           | (Thrown e, w') => (Thrown e, w')
           end.
(** [try { m } catch (error) { h error }]: what [m] wrote before it threw
    stays written. *)
Definition tryCatch {A} (m : M A) (h : Exn -> M A) : M A :=
  fun w => match m w with
           | (Returned a, w') => (Returned a, w')
           | (Thrown e, w') => h e w'
           end.

Definition gets {A} (f : World -> A) : M A := fun w => (Returned (f w), w).
Definition modifyDb (f : Db -> Db) : M unit :=
  fun w => (Returned tt,
            {| db := f (db w); now := now w; stripeIntents := stripeIntents w;
               writesLeft := writesLeft w; log := log w |}).
Definition emit (e : Effect) : M unit :=
  fun w => (Returned tt,
            {| db := db w; now := now w; stripeIntents := stripeIntents w;
               writesLeft := writesLeft w; log := (log w ++ [e])%list |}).

(** A write reaches the store, or the driver rejects. *)
Definition write : M unit :=
  fun w => match writesLeft w with
           | None => (Returned tt, w)
           | Some O => (Thrown MongoError, w)
           | Some (S n) =>
               (Returned tt,
                {| db := db w; now := now w; stripeIntents := stripeIntents w;
                   writesLeft := Some n; log := log w |})
           end.

Definition run {A} (m : M A) (w : World) : Outcome A * World := m w.

End Runtime.

Module MonadNotations.
Import Runtime.
Notation "x <- m ;; k" := (bind m (fun x => k))
  (at level 20, m at level 99, k at level 200, only parsing).
Notation "'exec' m ;; k" := (bind m (fun _ => k))
  (at level 20, m at level 99, k at level 200, only parsing).
End MonadNotations.

(* ===================================================================== *)
(** * The Mongoose calls the handlers make *)
(* ===================================================================== *)

Module Mongoose.
Import Runtime MonadNotations.
Import UserModel.

Definition setUsers (f : gmap nat IUser -> gmap nat IUser) (d : Db) : Db :=
  {| users := f (users d); packs := packs d;
     appointments := appointments d; purchases := purchases d |}.
Definition setAppointments
    (f : list AppointmentModel.IAppointment -> list AppointmentModel.IAppointment)
    (d : Db) : Db :=
  {| users := users d; packs := packs d;
     appointments := f (appointments d); purchases := purchases d |}.
Definition setPurchases
    (f : list PurchaseModel.IPurchase -> list PurchaseModel.IPurchase)
    (d : Db) : Db :=
  {| users := users d; packs := packs d;
     appointments := appointments d; purchases := f (purchases d) |}.

(** ** Appointment *)

(** [Appointment.find(filter)] *)
Definition Appointment_find (P : AppointmentModel.IAppointment -> Prop)
    `{!forall a, Decision (P a)} : M (list AppointmentModel.IAppointment) :=
  gets (fun w => filter P (appointments (db w))).

(** [Appointment.countDocuments(filter)] *)
Definition Appointment_countDocuments (P : AppointmentModel.IAppointment -> Prop)
    `{!forall a, Decision (P a)} : M Z :=
  gets (fun w => Z.of_nat (length (filter P (appointments (db w))))).

(** [Appointment.findOne(filter)], the filter may mention the [_id]. *)
Definition Appointment_findOne
    (P : nat * AppointmentModel.IAppointment -> Prop)
    `{!forall a, Decision (P a)}
  : M (option (nat * AppointmentModel.IAppointment)) :=
  gets (fun w => snd <$> list_find P (imap pair (appointments (db w)))).

(** [Appointment.findById(id)] *)
Definition Appointment_findById (id : nat)
  : M (option AppointmentModel.IAppointment) :=
  gets (fun w => appointments (db w) !! id).

(** [new Appointment(a).save()]: validate, send, and let the store check
    the unique index; the new document gets the next [_id]. *)
Definition Appointment_create (a : AppointmentModel.IAppointment)
  : M (nat * AppointmentModel.IAppointment) :=
  if negb (AppointmentModel.validate a) then throw ValidationError
  else
    exec write ;;
    docs <- gets (fun w => appointments (db w)) ;;
    if AppointmentModel.duplicateKey docs a then throw DuplicateKeyError
    else
      exec modifyDb (setAppointments (fun l => (l ++ [a])%list)) ;;
      exec emit (AppointmentSaved (length docs) (AppointmentModel.status a)) ;;
      ret (length docs, a).

(** [appointment.save()] on a document loaded from the store. *)
Definition Appointment_save (id : nat) (a : AppointmentModel.IAppointment)
  : M unit :=
  if negb (AppointmentModel.validate a) then throw ValidationError
  else
    exec write ;;
    docs <- gets (fun w => appointments (db w)) ;;
    if AppointmentModel.duplicateKey (delete id docs) a then throw DuplicateKeyError
    else
      exec modifyDb (setAppointments (fun l => <[id := a]> l)) ;;
      emit (AppointmentSaved id (AppointmentModel.status a)).

(** ** User *)

(** [User.findById(id)] *)
Definition User_findById (id : nat) : M (option IUser) :=
  gets (fun w => users (db w) !! id).

(** [User.findByIdAndUpdate(id, { $inc: { totalPoints: delta } }, { new: true })]:
    an update, so the schema validators do not run. *)
Definition User_findByIdAndUpdate_inc (id : nat) (delta : Z)
  : M (option IUser) :=
  exec write ;;
  u <- User_findById id ;;
  match u with
  | None => ret None
  | Some u =>
      let u' := withTotalPoints u (totalPoints u + delta) in
      exec modifyDb (setUsers (fun m => <[id := u']> m)) ;;
      exec emit (UserPointsIncremented id delta) ;;
      ret (Some u')
  end.

(** [User.findByIdAndUpdate(id, { totalPoints: total }, { new: true })] *)
Definition User_findByIdAndUpdate_set (id : nat) (total : Z)
  : M (option IUser) :=
  exec write ;;
  u <- User_findById id ;;
  match u with
  | None => ret None
  | Some u =>
      let u' := withTotalPoints u total in
      exec modifyDb (setUsers (fun m => <[id := u']> m)) ;;
      exec emit (UserPointsSet id total) ;;
      ret (Some u')
  end.

(** [user.save()] on a document [loaded] from the store and then changed
    to [u]: nothing is validated or sent when no path was modified;
    otherwise the validators of the modified path run first. *)
Definition User_save (id : nat) (loaded u : IUser) : M unit :=
  if bool_decide (totalPoints u = totalPoints loaded) then ret tt
  else if negb (UserModel.validate u) then throw ValidationError
  else
    exec write ;;
    exec modifyDb (setUsers (fun m => <[id := u]> m)) ;;
    emit (UserPointsSet id (totalPoints u)).

(** ** Purchase *)

(** [Purchase.findOne(filter)]: the first matching document, with its [_id]. *)
Definition Purchase_findOne (P : PurchaseModel.IPurchase -> Prop)
    `{!forall p, Decision (P p)} : M (option (nat * PurchaseModel.IPurchase)) :=
  gets (fun w => list_find P (purchases (db w))).

(** [purchase.save()] on a document loaded from the store. *)
Definition Purchase_save (id : nat) (p : PurchaseModel.IPurchase) : M unit :=
  if negb (PurchaseModel.validate p) then throw ValidationError
  else
    exec write ;;
    exec modifyDb (setPurchases (fun l => <[id := p]> l)) ;;
    emit (PurchaseSaved id (PurchaseModel.status p)).

(** [Purchase.findOneAndUpdate({ stripePaymentIntentId }, { status })] *)
Definition Purchase_findOneAndUpdate_status (intent : string)
    (s : PurchaseModel.Status) : M unit :=
  exec write ;;
  found <- Purchase_findOne (fun p => PurchaseModel.stripePaymentIntentId p = intent) ;;
  match found with
  | None => ret tt
  | Some (id, p) =>
      exec modifyDb (setPurchases (fun l => <[id := PurchaseModel.withStatus p s]> l)) ;;
      emit (PurchaseStatusUpdated intent s)
  end.

(** [.populate('packId userId')] *)
Definition populate (p : PurchaseModel.IPurchase)
  : M (option PackModel.IPack * option IUser) :=
  gets (fun w => (packs (db w) !! PurchaseModel.packId p,
                  users (db w) !! PurchaseModel.userId p)).

(** [stripe.paymentIntents.retrieve(id)] *)
Definition Stripe_retrieve (intent : string) : M Stripe.IntentStatus :=
  exec emit (StripeRetrieved intent) ;;
  s <- gets (fun w => stripeIntents w !! intent) ;;
  match s with
  | Some s => ret s
  | None => throw StripeError
  end.

End Mongoose.

(* ===================================================================== *)
(** * services/appointmentService.ts *)
(* ===================================================================== *)

Module AppointmentService.
Import DateUtils PricingService Runtime MonadNotations Mongoose.
Import AppointmentModel.

(** The filter [{ appointmentDate: { $gte: from, $lte: to },
    status: { $in: ['pending', 'confirmed', 'in_progress'] } }]. *)
Definition activeBetween (from to : Date) (a : IAppointment) : Prop :=
  (from <= appointmentDate a /\ appointmentDate a <= to)
  /\ isActiveStatus (status a) = true.

#[global] Instance activeBetween_dec from to a : Decision (activeBetween from to a).
Proof. unfold activeBetween. apply _. Defined.

(** [.sort({ startTime: 1 })] *)
Definition byStartTime (a b : IAppointment) : Prop := startTime a <= startTime b.

#[global] Instance byStartTime_dec a b : Decision (byStartTime a b).
Proof. unfold byStartTime. apply _. Defined.

(** The loop [for (const timeSlot of allTimeSlots)]. *)
Fixpoint firstFreeSlot (requestedDate : Date) (bookedSlots allTimeSlots : list string)
  : option (string * option (Date * Date)) :=
  match allTimeSlots with
  | [] => None
  | timeSlot :: rest =>
      if negb (includes bookedSlots timeSlot)
      then Some (timeSlot, createDateTimeFromSlot requestedDate timeSlot)
      else firstFreeSlot requestedDate bookedSlots rest
  end.

Definition findAvailableSlot (requestedDate : Date)
  : M (option (string * option (Date * Date))) :=
  let startOfDay := setHours requestedDate 0 0 0 0 in
  let endOfDay := setHours requestedDate 23 59 59 999 in
  found <- Appointment_find (activeBetween startOfDay endOfDay) ;;
  let existingAppointments := merge_sort byStartTime found in
  let allTimeSlots := getTimeSlots in
  let bookedSlots := map timeSlot existingAppointments in
  ret (firstFreeSlot requestedDate bookedSlots allTimeSlots).

Definition getUserAppointmentCount (uid : nat) : M Z :=
  Appointment_countDocuments
    (fun a => userId a = uid /\ isActiveStatus (status a) = true).

(** The [$group] stage: one counter per [%Y-%m-%d] string of the date. *)
Definition groupByDate (docs : list IAppointment) : gmap string Z :=
  foldr (fun a m =>
           let key := isoDateString (appointmentDate a) in
           <[key := default 0 (m !! key) + 1]> m)
        ∅ docs.

(** The aggregation pipeline: [$match] on the range and the active
    statuses, [$group] by date string with a count, [$match] on a count of
    at least 4; the result lists the [_id] of each remaining group. *)
Definition pipeline (startDate endDate : Date) (docs : list IAppointment)
  : list string :=
  let matched := filter (activeBetween startDate endDate) docs in
  let groups := groupByDate matched in
  let result := map_to_list (filter (fun kv => 4 <= kv.2) groups) in
  result.*1.

Definition getFullyBookedDatesInRange (startDate endDate : Date)
  : M (list string) :=
  gets (fun w => pipeline startDate endDate (appointments (db w))).

(** [Math.ceil(x / y)] for integers [x] and positive [y]. *)
Definition Math_ceil_div (x y : Z) : Z := - ((- x) / y).

Definition msgPast : string := "Cannot book appointments in the past".
Definition msgSixMonths : string :=
  "Booking window extended to 6 months due to high demand. Please choose a date within 6 months.".
Definition msgThreeMonths : string :=
  "Please choose a date within the next 3 months".

Definition validateBookingWindow (requestedDate : Date)
  : M (bool * option string) :=
  current <- gets now ;;
  let today := setHours current 0 0 0 0 in
  let requestedDateOnly := setHours requestedDate 0 0 0 0 in
  if requestedDateOnly <? today then ret (false, Some msgPast)
  else
    let threeMonthsFromNow := addMonths today 3 in
    if requestedDateOnly <=? threeMonthsFromNow then ret (true, None)
    else
      fullyBookedDates <- getFullyBookedDatesInRange today threeMonthsFromNow ;;
      let totalDaysInRange :=
        Math_ceil_div (threeMonthsFromNow - today) (1000 * 60 * 60 * 24) in
      if totalDaysInRange <=? Z.of_nat (length fullyBookedDates) then
        let sixMonthsFromNow := addMonths today 6 in
        if requestedDateOnly <=? sixMonthsFromNow then ret (true, None)
        else ret (false, Some msgSixMonths)
      else ret (false, Some msgThreeMonths).

Record AppointmentData := {
  ad_userId : nat;
  ad_serviceType : ServiceType;
  ad_appointmentDate : Date;
  ad_location : string;
  ad_timeSlot : string;
  ad_times : option (Date * Date);
  ad_price : Z;
  ad_notes : option string
}.

(** An invalid [startTime] or [endTime] fails the cast of a required
    [Date] path. *)
Definition createAppointment (d : AppointmentData) : M (nat * IAppointment) :=
  match ad_times d with
  | None => throw ValidationError
  | Some (start, finish) =>
      Appointment_create
        {| userId := ad_userId d;
           serviceType := ad_serviceType d;
           appointmentDate := ad_appointmentDate d;
           timeSlot := ad_timeSlot d;
           startTime := start;
           endTime := finish;
           location := ad_location d;
           status := confirmed;
           price := ad_price d;
           notes := ad_notes d |}
  end.

Definition deductUserPoints (uid : nat) (points : Z) : M unit :=
  exec User_findByIdAndUpdate_inc uid (- points) ;;
  ret tt.

End AppointmentService.

(* ===================================================================== *)
(** * services/stripeService.ts *)
(* ===================================================================== *)

Module StripeService.
Import PricingService Runtime MonadNotations Mongoose.
Import PurchaseModel.

Record PaymentResult := {
  res_purchaseId : nat;
  res_purchase : IPurchase;
  res_user : option UserModel.IUser;
  res_pack : option PackModel.IPack;
  res_pointsAwarded : Z;
  alreadyProcessed : bool
}.

Definition handleSuccessfulPayment (paymentIntentId : string)
  : M (option PaymentResult) :=
  tryCatch
    (found <- Purchase_findOne
                (fun p => stripePaymentIntentId p = paymentIntentId) ;;
     match found with
     | None => ret None
     | Some (id, purchase) =>
         populated <- populate purchase ;;
         let '(pack, user) := populated in
         if bool_decide (status purchase = succeeded) then
           ret (Some {| res_purchaseId := id;
                        res_purchase := purchase;
                        res_user := user;
                        res_pack := pack;
                        res_pointsAwarded :=
                          pointsAwarded purchase + bonusPointsAwarded purchase;
                        alreadyProcessed := true |})
         else
           let purchase := withStatus purchase processing in
           exec Purchase_save id purchase ;;
           match pack with
           | None => throw TypeError
           | Some pack =>
               let pointsToAward := PackModel.pointsIncluded pack in
               let bonusPointsToAward := PackModel.bonusPoints pack in
               let totalPointsToAward := pointsToAward + bonusPointsToAward in
               match user with
               | None => throw TypeError
               | Some _ =>
                   updatedUser <- User_findByIdAndUpdate_inc
                                    (userId purchase) totalPointsToAward ;;
                   match updatedUser with
                   | None =>
                       exec Purchase_save id (withStatus purchase failed) ;;
                       throw (Error "Failed to update user points")
                   | Some updatedUser =>
                       let purchase :=
                         withAwards (withStatus purchase succeeded)
                           pointsToAward bonusPointsToAward
                           (PackModel.freeServices pack) in
                       exec Purchase_save id purchase ;;
                       ret (Some {| res_purchaseId := id;
                                    res_purchase := purchase;
                                    res_user := Some updatedUser;
                                    res_pack := Some pack;
                                    res_pointsAwarded := totalPointsToAward;
                                    alreadyProcessed := false |})
                   end
               end
           end
     end)
    (fun error =>
       exec tryCatch (Purchase_findOneAndUpdate_status paymentIntentId failed)
                     (fun _ => ret tt) ;;
       throw error).

Definition getPaymentIntent (paymentIntentId : string) : M Stripe.IntentStatus :=
  Stripe_retrieve paymentIntentId.

End StripeService.

(* ===================================================================== *)
(** * HTTP responses *)
(* ===================================================================== *)

Module Http.

#[local] Set Warnings "-register-all".

Inductive Json :=
  | JStr (s : string)
  | JNum (n : Z)
  | JBool (b : bool)
  | JNull
  | JObj (fields : list (string * Json)).

(** [res.status(code).json(body)] *)
Record Response := {
  statusCode : Z;
  body : list (string * Json)
}.

Definition json (code : Z) (fields : list (string * Json)) : Response :=
  {| statusCode := code; body := fields |}.

(** The decimal text of an integer, as string concatenation and template
    literals produce it. *)
Definition numberToString (n : Z) : string := pretty n.
Arguments numberToString : simpl never.

(** A double quote, for messages that contain one. *)
Definition dq : string := String (ascii_of_nat 34) EmptyString.

Fixpoint field (k : string) (fields : list (string * Json)) : option Json :=
  match fields with
  | [] => None
  | (k', v) :: rest => if String.eqb k k' then Some v else field k rest
  end.

End Http.

(* ===================================================================== *)
(** * controllers/appointmentController.ts *)
(* ===================================================================== *)

Module AppointmentController.
Import DateUtils PricingService Runtime MonadNotations Mongoose Http.
Import AppointmentModel.

Definition statusString (s : Status) : string :=
  match s with
  | pending => "pending" | confirmed => "confirmed"
  | in_progress => "in_progress" | completed => "completed"
  | cancelled => "cancelled"
  end.

(** [bookAppointment]; the request passed [bookAppointmentValidation] and
    [uid] is the authenticated user.  The notification mails are sent
    without being awaited and do not touch the store. *)
Definition bookAppointment (uid : nat) (serviceType : ServiceType)
    (requestedDate : Date) (location : string) (notes : option string)
  : M Response :=
  tryCatch
    (windowValidation <- AppointmentService.validateBookingWindow requestedDate ;;
     if negb (fst windowValidation) then
       ret (json 400 [("error", match snd windowValidation with
                                | Some m => JStr m | None => JNull end)])
     else
       userAppointmentCount <- AppointmentService.getUserAppointmentCount uid ;;
       if 3 <=? userAppointmentCount then
         ret (json 400 [("error", JStr "Maximum appointment limit reached. You can have up to 3 active appointments.")])
       else
         availableSlot <- AppointmentService.findAvailableSlot requestedDate ;;
         match availableSlot with
         | None =>
             ret (json 400 [("error", JStr "No available time slots for this date. Please choose another date.")])
         | Some (slot, times) =>
             let appointmentPrice :=
               calculateAppointmentPrice serviceType requestedDate in
             user <- User_findById uid ;;
             match user with
             | None => ret (json 404 [("error", JStr "User not found")])
             | Some user =>
                 if UserModel.totalPoints user <? appointmentPrice then
                   ret (json 400
                          [("error", JStr "Insufficient points");
                           ("required", JNum appointmentPrice);
                           ("available", JNum (UserModel.totalPoints user));
                           ("shortfall",
                            JNum (appointmentPrice - UserModel.totalPoints user))])
                 else
                   created <- AppointmentService.createAppointment
                     {| AppointmentService.ad_userId := uid;
                        AppointmentService.ad_serviceType := serviceType;
                        AppointmentService.ad_appointmentDate := requestedDate;
                        AppointmentService.ad_location := location;
                        AppointmentService.ad_timeSlot := slot;
                        AppointmentService.ad_times := times;
                        AppointmentService.ad_price := appointmentPrice;
                        AppointmentService.ad_notes := notes |} ;;
                   let '(id, appointment) := created in
                   exec AppointmentService.deductUserPoints uid appointmentPrice ;;
                   ret (json 201
                          [("message", JStr "Appointment booked successfully");
                           ("appointment",
                            JObj [("id", JNum (Z.of_nat id));
                                  ("timeSlot", JStr (timeSlot appointment));
                                  ("status", JStr (statusString (status appointment)));
                                  ("price", JNum (price appointment))]);
                           ("userPointsRemaining",
                            JNum (UserModel.totalPoints user - appointmentPrice))])
             end
         end)
    (fun _ => ret (json 500 [("error", JStr "Failed to book appointment")])).

(** [cancelAppointment] of the owner's route. *)
Definition cancelAppointment (uid : nat) (appointmentId : nat) : M Response :=
  tryCatch
    (found <- Appointment_findOne
                (fun d => fst d = appointmentId /\ userId (snd d) = uid) ;;
     match found with
     | None => ret (json 404 [("error", JStr "Appointment not found")])
     | Some (id, appointment) =>
         if bool_decide (status appointment = cancelled) then
           ret (json 400 [("error", JStr "Appointment is already cancelled")])
         else if bool_decide (status appointment = completed) then
           ret (json 400 [("error", JStr "Cannot cancel completed appointment")])
         else
           let appointment := withStatus appointment cancelled in
           exec Appointment_save id appointment ;;
           exec User_findByIdAndUpdate_inc uid (price appointment) ;;
           user <- User_findById uid ;;
           match user with
           | None => throw TypeError
           | Some _ =>
               ret (json 200
                      [("message", JStr "Appointment cancelled successfully");
                       ("refundedPoints", JNum (price appointment))])
           end
     end)
    (fun _ => ret (json 500 [("error", JStr "Failed to cancel appointment")])).

End AppointmentController.

(* ===================================================================== *)
(** * controllers/adminController.ts *)
(* ===================================================================== *)

Module AdminController.
Import DateUtils Runtime MonadNotations Mongoose Http.

(** [updateUserPoints] of the admin route.  The handler does not consult
    the result of [updateUserPointsValidation], so [points] and [operation]
    arrive as sent. *)
Definition updateUserPoints (uid : nat) (points : Z) (operation : string)
  : M Response :=
  tryCatch
    (user <- User_findById uid ;;
     match user with
     | None => ret (json 404 [("success", JBool false);
                              ("message", JStr "User not found")])
     | Some user =>
         let save newPointsTotal :=
           exec User_save uid user (UserModel.withTotalPoints user newPointsTotal) ;;
           updatedUser <- User_findById uid ;;
           ret (json 200
                  [("success", JBool true);
                   ("message",
                    JStr ("Successfully " +:+ operation +:+ "ed "
                          +:+ numberToString points +:+ " points"));
                   ("data",
                    match updatedUser with
                    | Some updated =>
                        JObj [("email", JStr (UserModel.email updated));
                              ("totalPoints", JNum (UserModel.totalPoints updated))]
                    | None => JNull
                    end)]) in
         if String.eqb operation "add" then
           save (UserModel.totalPoints user + points)
         else if String.eqb operation "subtract" then
           let newPointsTotal := UserModel.totalPoints user - points in
           if newPointsTotal <? 0 then
             ret (json 400
                    [("success", JBool false);
                     ("message",
                      JStr ("Insufficient points. User only has "
                            +:+ numberToString (UserModel.totalPoints user)
                            +:+ " points."))])
           else save newPointsTotal
         else if String.eqb operation "set" then
           save points
         else
           ret (json 400 [("success", JBool false);
                          ("message", JStr "Invalid operation. Use add, subtract, or set.")])
     end)
    (fun _ => ret (json 500 [("success", JBool false);
                             ("message", JStr "Failed to update points")])).

Definition newline : string := String (ascii_of_nat 10) EmptyString.

(** [cancelAppointment] of the admin route. *)
Definition cancelAppointment (appointmentId : nat) (reason : option string)
  : M Response :=
  tryCatch
    (found <- Appointment_findById appointmentId ;;
     match found with
     | None => ret (json 404 [("success", JBool false);
                              ("message", JStr "Appointment not found")])
     | Some appointment =>
         if bool_decide (AppointmentModel.status appointment = AppointmentModel.cancelled) then
           ret (json 400 [("success", JBool false);
                          ("message", JStr "Appointment is already cancelled")])
         else if bool_decide (AppointmentModel.status appointment = AppointmentModel.completed) then
           ret (json 400 [("success", JBool false);
                          ("message", JStr "Cannot cancel a completed appointment")])
         else
           let appointment :=
             AppointmentModel.withStatus appointment AppointmentModel.cancelled in
           let appointment :=
             match reason with
             | Some reason =>
                 AppointmentModel.withNotes appointment
                   (Some match AppointmentModel.notes appointment with
                         | Some n =>
                             String.append n
                               (String.append newline
                                  (String.append newline
                                     (String.append "Cancelled by admin: " reason)))
                         | None => String.append "Cancelled by admin: " reason
                         end)
             | None => appointment
             end in
           exec Appointment_save appointmentId appointment ;;
           user <- User_findById (AppointmentModel.userId appointment) ;;
           match user with
           | None => throw TypeError
           | Some _ =>
               ret (json 200
                      [("success", JBool true);
                       ("message", JStr "Appointment cancelled successfully");
                       ("data", JObj [("appointmentId", JNum (Z.of_nat appointmentId));
                                      ("timeSlot", JStr (AppointmentModel.timeSlot appointment))])])
           end
     end)
    (fun _ => ret (json 500 [("success", JBool false);
                             ("message", JStr "Failed to cancel appointment")])).

End AdminController.

(* ===================================================================== *)
(** * controllers/userController.ts *)
(* ===================================================================== *)

Module UserController.
Import DateUtils Runtime MonadNotations Mongoose Http.

(** [updatePointsValidation]: [points] is an integer of at least 1 and
    [operation] one of the three names. *)
Definition updatePointsValidation (points : Z) (operation : string) : bool :=
  (1 <=? points) && includes ["add"; "subtract"; "set"] operation.

(** [updateUserPoints] of the user's own route. *)
Definition updateUserPoints (uid : nat) (points : Z) (operation : string)
  : M Response :=
  tryCatch
    (if negb (updatePointsValidation points operation) then
       ret (json 400 [("error", JStr "Validation failed")])
     else
       user <- User_findById uid ;;
       match user with
       | None => ret (json 404 [("error", JStr "User not found")])
       | Some user =>
           let update pointsChange newTotal :=
             updatedUser <- User_findByIdAndUpdate_set uid newTotal ;;
             match updatedUser with
             | None => throw TypeError
             | Some updated =>
                 ret (json 200
                        [("message",
                          JStr ("Points " +:+ operation +:+ "ed successfully"));
                         ("pointsTransaction",
                          JObj [("operation", JStr operation);
                                ("pointsChanged", JNum pointsChange);
                                ("previousBalance", JNum (UserModel.totalPoints user));
                                ("newBalance", JNum newTotal)]);
                         ("user",
                          JObj [("email", JStr (UserModel.email updated));
                                ("totalPoints", JNum (UserModel.totalPoints updated))])])
             end in
           if String.eqb operation "add" then
             update points (UserModel.totalPoints user + points)
           else if String.eqb operation "subtract" then
             let newTotal := UserModel.totalPoints user - points in
             if newTotal <? 0 then
               ret (json 400
                      [("error", JStr "Insufficient points");
                       ("currentBalance", JNum (UserModel.totalPoints user));
                       ("requestedDeduction", JNum points);
                       ("shortfall", JNum (points - UserModel.totalPoints user))])
             else update (- points) newTotal
           else if String.eqb operation "set" then
             update (points - UserModel.totalPoints user) points
           else
             ret (json 400
                    [("error",
                      JStr ("Invalid operation. Use " +:+ dq +:+ "add" +:+ dq
                            +:+ ", " +:+ dq +:+ "subtract" +:+ dq
                            +:+ ", or " +:+ dq +:+ "set" +:+ dq))])
       end)
    (fun _ => ret (json 500 [("error", JStr "Failed to update points")])).

End UserController.

(* ===================================================================== *)
(** * controllers/packController.ts *)
(* ===================================================================== *)

Module PackController.
Import Runtime MonadNotations Mongoose Http.
Import PurchaseModel.

Definition statusString (s : Status) : string :=
  match s with
  | pending => "pending" | processing => "processing"
  | succeeded => "succeeded" | failed => "failed" | canceled => "canceled"
  end.

Definition intentStatusString (s : Stripe.IntentStatus) : string :=
  match s with
  | Stripe.requires_payment_method => "requires_payment_method"
  | Stripe.requires_confirmation => "requires_confirmation"
  | Stripe.requires_action => "requires_action"
  | Stripe.processing => "processing"
  | Stripe.requires_capture => "requires_capture"
  | Stripe.canceled => "canceled"
  | Stripe.succeeded => "succeeded"
  end.

Definition purchaseJson (id : nat) (p : IPurchase) : Json :=
  JObj [("id", JNum (Z.of_nat id));
        ("status", JStr (statusString (status p)));
        ("pointsAwarded", JNum (pointsAwarded p));
        ("bonusPointsAwarded", JNum (bonusPointsAwarded p))].

(** [confirmPurchase]; [uid] is the authenticated user. *)
Definition confirmPurchase (uid : nat) (paymentIntentId : string) : M Response :=
  tryCatch
    (if String.eqb paymentIntentId EmptyString then
       ret (json 400 [("error", JStr "Validation failed")])
     else
       found <- Purchase_findOne
                  (fun p => stripePaymentIntentId p = paymentIntentId
                            /\ userId p = uid) ;;
       match found with
       | None => ret (json 404 [("error", JStr "Purchase not found");
                                ("code", JStr "PURCHASE_NOT_FOUND")])
       | Some (id, purchase) =>
           if bool_decide (status purchase = succeeded) then
             user <- User_findById uid ;;
             ret (json 200
                    [("message", JStr "Purchase already completed");
                     ("pointsAwarded",
                      JNum (pointsAwarded purchase + bonusPointsAwarded purchase));
                     ("purchase", purchaseJson id purchase);
                     ("userNewBalance",
                      JNum (match user with
                            | Some u => UserModel.totalPoints u
                            | None => 0
                            end))])
           else if bool_decide (status purchase = processing) then
             ret (json 202 [("message", JStr "Purchase is being processed, please wait");
                            ("status", JStr "processing")])
           else
             checked <- tryCatch
                          (s <- StripeService.getPaymentIntent paymentIntentId ;;
                           ret (Some s))
                          (fun _ => ret None) ;;
             match checked with
             | None =>
                 ret (json 500 [("error", JStr "Failed to verify payment status");
                                ("code", JStr "STRIPE_API_ERROR")])
             | Some paymentIntent =>
                 if bool_decide (paymentIntent = Stripe.succeeded) then
                   tryCatch
                     (result <- StripeService.handleSuccessfulPayment paymentIntentId ;;
                      match result with
                      | Some r =>
                          match StripeService.res_user r with
                          | None => throw TypeError
                          | Some updatedUser =>
                              ret (json 200
                                     [("message",
                                       JStr (if StripeService.alreadyProcessed r
                                             then "Purchase already completed"
                                             else "Purchase completed successfully"));
                                      ("pointsAwarded",
                                       JNum (StripeService.res_pointsAwarded r));
                                      ("purchase",
                                       purchaseJson (StripeService.res_purchaseId r)
                                                    (StripeService.res_purchase r));
                                      ("userNewBalance",
                                       JNum (UserModel.totalPoints updatedUser))])
                          end
                      | None =>
                          ret (json 400 [("error", JStr "Purchase processing failed");
                                         ("code", JStr "PROCESSING_FAILED")])
                      end)
                     (fun _ =>
                        ret (json 500 [("error", JStr "Failed to process successful payment");
                                       ("code", JStr "PROCESSING_ERROR")]))
                 else if bool_decide (paymentIntent = Stripe.requires_payment_method) then
                   ret (json 400 [("error", JStr "Payment requires a new payment method");
                                  ("paymentStatus", JStr (intentStatusString paymentIntent));
                                  ("code", JStr "PAYMENT_REQUIRES_ACTION")])
                 else if bool_decide (paymentIntent = Stripe.canceled) then
                   ret (json 400 [("error", JStr "Payment was canceled");
                                  ("paymentStatus", JStr (intentStatusString paymentIntent));
                                  ("code", JStr "PAYMENT_CANCELED")])
                 else
                   ret (json 400 [("error", JStr "Payment not completed");
                                  ("paymentStatus", JStr (intentStatusString paymentIntent));
                                  ("code", JStr "PAYMENT_INCOMPLETE")])
             end
       end)
    (fun _ => ret (json 500 [("error", JStr "Failed to confirm purchase");
                             ("code", JStr "INTERNAL_ERROR")])).

End PackController.

(* ===================================================================== *)
(** * webhooks/stripeWebhook.ts *)
(* ===================================================================== *)

Module StripeWebhook.
Import Runtime MonadNotations Mongoose Http.

(** [handleStripeWebhook] once [constructEvent] has accepted the signature.
    Every failure inside a case is caught and logged; the receipt is always
    acknowledged. *)
Definition handleStripeWebhook (event : Stripe.Event) : M Response :=
  let acknowledge := ret (json 200 [("received", JBool true)]) in
  tryCatch
    (match event with
     | Stripe.payment_intent_succeeded id =>
         exec tryCatch (exec StripeService.handleSuccessfulPayment id ;; ret tt)
                       (fun _ => ret tt) ;;
         acknowledge
     | Stripe.payment_intent_payment_failed id =>
         exec tryCatch (Purchase_findOneAndUpdate_status id PurchaseModel.failed)
                       (fun _ => ret tt) ;;
         acknowledge
     | Stripe.payment_intent_canceled id =>
         exec tryCatch (Purchase_findOneAndUpdate_status id PurchaseModel.canceled)
                       (fun _ => ret tt) ;;
         acknowledge
     | Stripe.payment_intent_requires_action _ => acknowledge
     | Stripe.unhandled _ => acknowledge
     end)
    (fun _ => ret (json 200 [("received", JBool true);
                             ("error", JStr "Internal server error processing webhook")])).

End StripeWebhook.

(* ===================================================================== *)
(** * Vocabulary of the specification *)
(* ===================================================================== *)

Module Spec.
Import DateUtils PricingService Runtime.
Import AppointmentModel.

(** Appointment [a] occupies [slot] on the calendar day of [date]: it falls
    on that day and its status is active. *)
Definition occupies (date : Date) (slot : string) (a : IAppointment) : Prop :=
  Day (appointmentDate a) = Day date
  /\ isActiveStatus (status a) = true
  /\ timeSlot a = slot.

Definition occupied (w : World) (date : Date) (slot : string) : Prop :=
  exists a, a ∈ appointments (db w) /\ occupies date slot a.

(** The same, with the active statuses spelled out: an appointment of the
    calendar day of [date] that is pending, confirmed or in progress holds
    [slot]. *)
Definition takenBy (date : Date) (slot : string) (a : IAppointment) : Prop :=
  Day (appointmentDate a) = Day date
  /\ (status a = pending \/ status a = confirmed \/ status a = in_progress)
  /\ timeSlot a = slot.

Definition taken (w : World) (date : Date) (slot : string) : Prop :=
  exists a, a ∈ appointments (db w) /\ takenBy date slot a.

(** The start hour each declared slot label stands for. *)
Definition slotHours : list (string * Z) :=
  [ ("14:00-16:00", 14); ("16:00-18:00", 16);
    ("18:00-20:00", 18); ("20:00-22:00", 20) ].

(** How many active appointments dated within [from, to] carry the
    calendar date [s] (as a YYYY-MM-DD string). *)
Definition activeOn (w : World) (from to : Date) (s : string) : nat :=
  length (filter (fun a => isoDateString (appointmentDate a) = s)
            (filter (AppointmentService.activeBetween from to)
               (appointments (db w)))).

(** A calendar day is fully booked when each of the four slots is taken
    by an active appointment of that day. *)
Definition slotTaken (docs : list IAppointment) (day : Z) (slot : string) : bool :=
  existsb (fun a => (Day (appointmentDate a) =? day)
                    && isActiveStatus (status a)
                    && String.eqb (timeSlot a) slot) docs.

Definition fullyBookedDay (docs : list IAppointment) (day : Z) : bool :=
  forallb (slotTaken docs day) getTimeSlots.

(** The calendar days from the day of [from] to the day of [to], both
    included. *)
Definition windowDays (from to : Date) : list Z :=
  map (fun i => Day from + Z.of_nat i)
      (seq 0 (Z.to_nat (Day to - Day from + 1))).

Definition fullyBookedDays (w : World) (from to : Date) : list Z :=
  List.filter (fullyBookedDay (appointments (db w))) (windowDays from to).

(** The unique index on [stripePaymentIntentId]. *)
Definition uniqueIntents (d : Db) : Prop :=
  forall i j p q,
    purchases d !! i = Some p -> purchases d !! j = Some q ->
    PurchaseModel.stripePaymentIntentId p = PurchaseModel.stripePaymentIntentId q ->
    i = j.

(** The purchase record after a successful reconciliation: succeeded,
    with the awards of the pack recorded. *)
Definition credited (p : PurchaseModel.IPurchase) (pack : PackModel.IPack)
  : PurchaseModel.IPurchase :=
  PurchaseModel.withAwards
    (PurchaseModel.withStatus
       (PurchaseModel.withStatus p PurchaseModel.processing)
       PurchaseModel.succeeded)
    (PackModel.pointsIncluded pack) (PackModel.bonusPoints pack)
    (PackModel.freeServices pack).

(** The store after that reconciliation: the owner credited with the
    points of the pack, the purchase recorded as succeeded. *)
Definition creditedDb (d : Db) (id : nat) (p : PurchaseModel.IPurchase)
    (pack : PackModel.IPack) (u : UserModel.IUser) : Db :=
  {| users := <[PurchaseModel.userId p :=
                  UserModel.withTotalPoints u
                    (UserModel.totalPoints u + PackModel.totalPoints pack)]>
                (users d);
     packs := packs d;
     appointments := appointments d;
     purchases := <[id := credited p pack]>
                    (<[id := PurchaseModel.withStatus p PurchaseModel.processing]>
                       (purchases d)) |}.

(** The answer of the webhook handler. *)
Definition acknowledged : Http.Response :=
  Http.json 200 [("received", Http.JBool true)].







(** The appointment that a booking creates. *)
Definition booked (uid : nat) (st : ServiceType) (d : Date) (loc : string)
    (notes : option string) (slot : string) (start finish : Date)
  : IAppointment :=
  {| userId := uid;
     serviceType := st;
     appointmentDate := d;
     timeSlot := slot;
     startTime := start;
     endTime := finish;
     location := loc;
     status := confirmed;
     price := calculateAppointmentPrice st d;
     notes := notes |}.




(** No user is in debt. *)
Definition nonNegativeBalances (d : Db) : Prop :=
  forall uid u, users d !! uid = Some u -> 0 <= UserModel.totalPoints u.



End Spec.

(* ===================================================================== *)
(** * Concrete stores used in the examples *)
(* ===================================================================== *)

Module Scenario.
Import DateUtils PricingService Runtime.

Definition alice : UserModel.IUser :=
  {| UserModel.email := "alice@example.dk"; UserModel.totalPoints := 2000;
     UserModel.role := "user"; UserModel.isActive := true |}.

Definition bob : UserModel.IUser :=
  {| UserModel.email := "bob@example.dk"; UserModel.totalPoints := 0;
     UserModel.role := "user"; UserModel.isActive := true |}.

Definition booking (uid : nat) (date : Date) (slot : string) (hour : Z)
    (s : AppointmentModel.Status) : AppointmentModel.IAppointment :=
  {| AppointmentModel.userId := uid;
     AppointmentModel.serviceType := basic;
     AppointmentModel.appointmentDate := date;
     AppointmentModel.timeSlot := slot;
     AppointmentModel.startTime := Day date * msPerDay + hour * msPerHour;
     AppointmentModel.endTime := Day date * msPerDay + (hour + 2) * msPerHour;
     AppointmentModel.location := "Havnegade 1, Odense";
     AppointmentModel.status := s;
     AppointmentModel.price := 1000;
     AppointmentModel.notes := None |}.

(** The four slots of one day, all confirmed. *)
Definition fullDay (date : Date) : list AppointmentModel.IAppointment :=
  map (fun sh => booking 2 date (fst sh) (snd sh) AppointmentModel.confirmed)
      Spec.slotHours.

(** [n] consecutive fully booked days, starting at [from]. *)
Definition fullDays (from : Date) (n : nat) : list AppointmentModel.IAppointment :=
  flat_map (fun i => fullDay (from + Z.of_nat i * msPerDay)) (seq 0 n).

Definition world (appts : list AppointmentModel.IAppointment) (today : Date)
  : World :=
  {| db := {| users := {[ 1%nat := alice; 2%nat := bob ]};
              packs := ∅;
              appointments := appts;
              purchases := [] |};
     now := today;
     stripeIntents := ∅;
     writesLeft := None;
     log := [] |}.

(** The same state on a store that rejects after [n] more writes. *)
Definition failAfter (n : nat) (w : World) : World :=
  {| db := db w; now := now w; stripeIntents := stripeIntents w;
     writesLeft := Some n; log := log w |}.


(** Saturday 1 March 2025, 09:00; today + 3 months is Sunday 1 June, so
    the window spans 93 calendar days. *)
Definition march1 : Date := ymd 2025 3 1.

(** Every day of the window fully booked, except the last. *)
Definition nearlySaturated : World :=
  world (fullDays march1 92) (march1 + 9 * msPerHour).

(** Every day of the window fully booked, except 15 March, which has no
    appointment at all. *)
Definition gapInMarch : World :=
  world (fullDays march1 14 ++ fullDays (march1 + 15 * msPerDay) 78)%list
        (march1 + 9 * msPerHour).

(** Every day of the window fully booked. *)
Definition saturated : World :=
  world (fullDays march1 93) (march1 + 9 * msPerHour).

(** A date beyond the three-month window and within six months. *)
Definition july15 : Date := ymd 2025 7 15.

(** No appointment at all. *)
Definition quiet : World := world [] (march1 + 9 * msPerHour).

(** A pack of 2800 points with 500 bonus points, and alice's pending
    purchase of it, which the processor reports as paid. *)
Definition goldPack : PackModel.IPack :=
  {| PackModel.name := "Gold"; PackModel.priceInDKK := 2500;
     PackModel.pointsIncluded := 2800; PackModel.bonusPoints := 500;
     PackModel.freeServices := []; PackModel.isActive := true |}.

Definition purchaseOf (uid : nat) (intent : string) (s : PurchaseModel.Status)
  : PurchaseModel.IPurchase :=
  {| PurchaseModel.userId := uid; PurchaseModel.packId := 7%nat;
     PurchaseModel.stripePaymentIntentId := intent;
     PurchaseModel.amount := 250000; PurchaseModel.status := s;
     PurchaseModel.pointsAwarded := 0; PurchaseModel.bonusPointsAwarded := 0;
     PurchaseModel.serviceCreditsAwarded := [] |}.

Definition checkout (s : PurchaseModel.Status) (paid : Stripe.IntentStatus)
  : World :=
  {| db := {| users := {[ 1%nat := alice; 2%nat := bob ]};
              packs := {[ 7%nat := goldPack ]};
              appointments := [];
              purchases := [purchaseOf 1 "pi_alice" s] |};
     now := ymd 2025 6 2;
     stripeIntents := {[ "pi_alice" := paid ]};
     writesLeft := None;
     log := [] |}.

(** Tuesday 10 June 2025 with its first slot confirmed for bob. *)
Definition june10 : Date := ymd 2025 6 10.

Definition firstSlotTaken : World :=
  world [booking 2 june10 "14:00-16:00" 14 AppointmentModel.confirmed]
        (ymd 2025 6 2).

End Scenario.



(* ===================================================================== *)
(** * Calendar and pricing *)
(* ===================================================================== *)

Section Calendar.
Import DateUtils PricingService.

Lemma msPerDay_pos : 0 < msPerDay.
Proof. reflexivity. Qed.

(** [setHours d 0 0 0 0] is the midnight that starts the day of [d]. *)
Lemma startOfDay_eq (d : Date) : setHours d 0 0 0 0 = Day d * msPerDay.
Proof. unfold setHours. lia. Qed.

Lemma endOfDay_eq (d : Date) :
  setHours d 23 59 59 999 = Day d * msPerDay + (msPerDay - 1).
Proof. unfold setHours, msPerDay. lia. Qed.

(** The day-range filter of the slot query selects exactly the dates on
    the same calendar day. *)
Lemma within_day_iff (d t : Date) :
  setHours d 0 0 0 0 <= t /\ t <= setHours d 23 59 59 999 <-> Day t = Day d.
Proof.
  rewrite startOfDay_eq, endOfDay_eq. unfold Day.
  pose proof msPerDay_pos as Hpos.
  pose proof (Z.div_mod t msPerDay ltac:(lia)) as Ht.
  pose proof (Z.mod_pos_bound t msPerDay Hpos) as Hb.
  split.
  - intros [Hlo Hhi].
    symmetry. apply Z.div_unique with (r := t - d / msPerDay * msPerDay); lia.
  - intros Heq. rewrite <- Heq. lia.
Qed.

Lemma includes_In (l : list string) (s : string) :
  includes l s = true <-> In s l.
Proof.
  unfold includes. rewrite existsb_exists. split.
  - intros (x & Hin & Heq). apply String.eqb_eq in Heq. now subst.
  - intros Hin. exists s. split; [assumption | apply String.eqb_refl].
Qed.

Lemma includes_false (l : list string) (s : string) :
  includes l s = false <-> ~ In s l.
Proof.
  rewrite <- includes_In. destruct (includes l s); split; intros; congruence.
Qed.

(** The holiday test comes first: a listed date is a holiday whatever its
    day of the week. *)
Lemma classify_holiday (holidays : list string) (date : Date) :
  In (isoDateString date) holidays -> classify holidays date = holiday.
Proof.
  intros Hin. unfold classify.
  apply includes_In in Hin. now rewrite Hin.
Qed.

Lemma getDateType_cases (date : Date) :
  (getDateType date = holiday /\ In (isoDateString date) danishHolidays2025)
  \/ (getDateType date = weekend
      /\ ~ In (isoDateString date) danishHolidays2025
      /\ (getDay date = 0 \/ getDay date = 6))
  \/ (getDateType date = weekday
      /\ ~ In (isoDateString date) danishHolidays2025
      /\ getDay date <> 0 /\ getDay date <> 6).
Proof.
  unfold getDateType, classify.
  destruct (includes danishHolidays2025 (isoDateString date)) eqn:Hh.
  - left. split; [reflexivity | now apply includes_In].
  - apply includes_false in Hh. right.
    destruct (getDay date =? 0) eqn:H0; [left; repeat split; auto; lia |].
    destruct (getDay date =? 6) eqn:H6; [left; repeat split; auto; lia |].
    right. simpl. repeat split; auto; lia.
Qed.

(** A Saturday that is on a holiday list is priced as a holiday. *)
Example classify_saturday_holiday :
  getDay (ymd 2025 6 14) = 6
  /\ classify ["2025-06-14"] (ymd 2025 6 14) = holiday
  /\ classify [] (ymd 2025 6 14) = weekend.
Proof. vm_compute. auto. Qed.

Example isoDateString_epoch : isoDateString 0 = "1970-01-01".
Proof. reflexivity. Qed.

Example addMonths_overflow :
  isoDateString (addMonths (ymd 2025 1 31) 1) = "2025-03-03"
  /\ isoDateString (addMonths (ymd 2025 11 15) 3) = "2026-02-15".
Proof. vm_compute. auto. Qed.

Example createDateTimeFromSlot_first :
  createDateTimeFromSlot (ymd 2025 6 10) "14:00-16:00"
  = Some (ymd 2025 6 10 + 14 * msPerHour, ymd 2025 6 10 + 16 * msPerHour).
Proof. vm_compute. reflexivity. Qed.

(** C9.  For each service type, the price on a weekend date is
    round(1.5 x) and the price on a holiday date is round(2.0 x) of the
    price x on a weekday date; and every date on the holiday list is
    classified and priced as a holiday, whatever its day of the week. *)
Theorem price_multipliers (serviceType : ServiceType) (plain other : Date) :
  getDateType plain = weekday ->
  (getDateType other = weekend ->
     calculateAppointmentPrice serviceType other
     = Math_round ((3 # 2) * inject_Z (calculateAppointmentPrice serviceType plain)))
  /\ (getDateType other = holiday ->
     calculateAppointmentPrice serviceType other
     = Math_round ((2 # 1) * inject_Z (calculateAppointmentPrice serviceType plain)))
  /\ (In (isoDateString other) danishHolidays2025 ->
     getDateType other = holiday
     /\ calculateAppointmentPrice serviceType other
        = Math_round ((2 # 1) * inject_Z (calculateAppointmentPrice serviceType plain)))
  /\ calculateAppointmentPrice serviceType plain
     = match serviceType with basic => 1000 | deluxe => 1400 end.
Proof.
  intros Hplain.
  assert (Hbase : calculateAppointmentPrice serviceType plain
                  = match serviceType with basic => 1000 | deluxe => 1400 end).
  { unfold calculateAppointmentPrice. rewrite Hplain. now destruct serviceType. }
  assert (Hhol : getDateType other = holiday ->
     calculateAppointmentPrice serviceType other
     = Math_round ((2 # 1) * inject_Z (calculateAppointmentPrice serviceType plain))).
  { intros Ho. rewrite Hbase. unfold calculateAppointmentPrice. rewrite Ho.
    now destruct serviceType. }
  repeat split.
  - intros Ho. rewrite Hbase. unfold calculateAppointmentPrice. rewrite Ho.
    now destruct serviceType.
  - exact Hhol.
  - now apply classify_holiday.
  - apply Hhol. now apply classify_holiday.
  - exact Hbase.
Qed.

Lemma price_multipliers_witness :
  calculateAppointmentPrice deluxe (ymd 2025 6 14) = 2100
  /\ calculateAppointmentPrice deluxe (ymd 2025 12 25) = 2800
  /\ calculateAppointmentPrice basic (ymd 2025 6 15) = 1500.
Proof.
  assert (Hwd : getDateType (ymd 2025 6 10) = weekday) by (vm_compute; reflexivity).
  split; [| split].
  - rewrite (proj1 (price_multipliers deluxe (ymd 2025 6 10) (ymd 2025 6 14) Hwd));
      vm_compute; reflexivity.
  - rewrite (proj1 (proj2 (price_multipliers deluxe (ymd 2025 6 10) (ymd 2025 12 25) Hwd)));
      vm_compute; reflexivity.
  - rewrite (proj1 (price_multipliers basic (ymd 2025 6 10) (ymd 2025 6 15) Hwd));
      vm_compute; reflexivity.
Defined.

End Calendar.

(* ===================================================================== *)
(** * Slot allocation *)
(* ===================================================================== *)

Section SlotAllocator.
Import DateUtils Runtime AppointmentModel AppointmentService Spec.

(** The loop returns the first label that is not booked. *)
Lemma firstFreeSlot_Some date booked slots slot times :
  firstFreeSlot date booked slots = Some (slot, times) ->
  exists before after,
    slots = (before ++ slot :: after)%list
    /\ ~ In slot booked
    /\ (forall s, In s before -> In s booked)
    /\ times = createDateTimeFromSlot date slot.
Proof.
  induction slots as [| s rest IH]; simpl; [discriminate |].
  destruct (includes booked s) eqn:Hs; simpl.
  - intros H. destruct (IH H) as (before & after & -> & Hfree & Hbefore & ->).
    exists (s :: before), after. repeat split; auto.
    intros x [<- | Hx]; [now apply includes_In | auto].
  - intros [= <- <-]. exists [], rest. repeat split; auto.
    + now apply includes_false.
    + intros x [].
Qed.

Lemma firstFreeSlot_None date booked slots :
  firstFreeSlot date booked slots = None <-> forall s, In s slots -> In s booked.
Proof.
  induction slots as [| s rest IH]; simpl.
  - split; [intros _ x [] | reflexivity].
  - destruct (includes booked s) eqn:Hs; simpl.
    + rewrite IH. apply includes_In in Hs. split.
      * intros H x [<- | Hx]; auto.
      * intros H x Hx. apply H. now right.
    + apply includes_false in Hs. split; [discriminate |].
      intros H. exfalso. apply Hs, H. now left.
Qed.

(** The labels the query collects are those of the appointments that
    occupy the requested day. *)
Lemma bookedSlots_occupied (w : World) (requestedDate : Date) (slot : string) :
  In slot (map timeSlot
             (merge_sort byStartTime
                (filter (activeBetween (setHours requestedDate 0 0 0 0)
                                       (setHours requestedDate 23 59 59 999))
                        (appointments (db w)))))
  <-> occupied w requestedDate slot.
Proof.
  rewrite <- list_elem_of_In, list_elem_of_fmap. unfold occupied, occupies.
  split.
  - intros (a & -> & Ha). rewrite merge_sort_Permutation in Ha.
    apply list_elem_of_filter in Ha as [[Hday Hact] Hin].
    exists a. repeat split; auto. now apply within_day_iff.
  - intros (a & Hin & Hday & Hact & <-). exists a. split; [reflexivity |].
    rewrite merge_sort_Permutation. apply list_elem_of_filter.
    split; [| assumption]. split; [| assumption]. now apply within_day_iff.
Qed.

Lemma findAvailableSlot_run (w : World) (requestedDate : Date) :
  findAvailableSlot requestedDate w
  = (Returned
       (firstFreeSlot requestedDate
          (map timeSlot
             (merge_sort byStartTime
                (filter (activeBetween (setHours requestedDate 0 0 0 0)
                                       (setHours requestedDate 23 59 59 999))
                        (appointments (db w)))))
          getTimeSlots),
     w).
Proof. reflexivity. Qed.

Lemma createDateTimeFromSlot_hour (requestedDate : Date) (slot : string) (hour : Z) :
  Number (beforeColon slot) = Some hour ->
  0 <= hour < 24 ->
  createDateTimeFromSlot requestedDate slot
  = Some (Day requestedDate * msPerDay + hour * msPerHour,
          Day requestedDate * msPerDay + (hour + 2) * msPerHour).
Proof.
  intros Hnum Hh. unfold createDateTimeFromSlot. rewrite Hnum. cbv zeta.
  assert (Hset : forall t h, setHours t h 0 0 0 = Day t * msPerDay + h * msPerHour)
    by (intros; unfold setHours, msPerHour; lia).
  assert (Hday : Day (Day requestedDate * msPerDay + hour * msPerHour)
                 = Day requestedDate).
  { unfold Day at 1. symmetry.
    apply Z.div_unique with (r := hour * msPerHour);
      unfold msPerDay, msPerHour; lia. }
  rewrite !Hset, Hday. reflexivity.
Qed.

Lemma slot_times (requestedDate : Date) (slot : string) :
  In slot getTimeSlots ->
  exists hour,
    In (slot, hour) slotHours
    /\ createDateTimeFromSlot requestedDate slot
       = Some (Day requestedDate * msPerDay + hour * msPerHour,
               Day requestedDate * msPerDay + (hour + 2) * msPerHour).
Proof.
  simpl. intros [<- | [<- | [<- | [<- | []]]]];
    [exists 14 | exists 16 | exists 18 | exists 20];
    (split; [simpl; auto 6 | apply createDateTimeFromSlot_hour; [reflexivity | lia]]).
Qed.

Lemma taken_occupied (w : World) (requestedDate : Date) (slot : string) :
  taken w requestedDate slot <-> occupied w requestedDate slot.
Proof.
  unfold taken, takenBy, occupied, occupies.
  split; intros (a & Hin & Hday & Hact & Hslot); exists a; repeat split; auto.
  - destruct Hact as [-> | [-> | ->]]; reflexivity.
  - destruct (status a); auto; discriminate.
Qed.

(** C8.  [findAvailableSlot] only reads the store.  It returns the first
    label, in the order 14:00-16:00, 16:00-18:00, 18:00-20:00, 20:00-22:00,
    that no appointment of the requested day with status pending,
    confirmed or in_progress holds, with the start and end times of that
    label on that day; the label it returns is never held; and it returns
    the null sentinel, not an exception, exactly when all four labels are
    held. *)
Theorem findAvailableSlot_first_free (w : World) (requestedDate : Date) :
  exists result,
    findAvailableSlot requestedDate w = (Returned result, w)
    /\ match result with
       | Some (slot, times) =>
           (exists before after,
              ["14:00-16:00"; "16:00-18:00"; "18:00-20:00"; "20:00-22:00"]
              = (before ++ slot :: after)%list
              /\ forall s, In s before -> taken w requestedDate s)
           /\ ~ taken w requestedDate slot
           /\ exists hour,
                In (slot, hour)
                   [("14:00-16:00", 14); ("16:00-18:00", 16);
                    ("18:00-20:00", 18); ("20:00-22:00", 20)]
                /\ times = Some (Day requestedDate * msPerDay + hour * msPerHour,
                                 Day requestedDate * msPerDay + (hour + 2) * msPerHour)
       | None => True
       end
    /\ (result = None <->
        taken w requestedDate "14:00-16:00"
        /\ taken w requestedDate "16:00-18:00"
        /\ taken w requestedDate "18:00-20:00"
        /\ taken w requestedDate "20:00-22:00").
Proof.
  rewrite findAvailableSlot_run. eexists. split; [reflexivity |].
  set (booked := map timeSlot _).
  assert (Hocc : forall s, In s booked <-> taken w requestedDate s).
  { intros s. rewrite taken_occupied. apply bookedSlots_occupied. }
  split.
  - destruct (firstFreeSlot requestedDate booked getTimeSlots)
      as [[slot times] |] eqn:Hfree; [| exact I].
    apply firstFreeSlot_Some in Hfree
      as (before & after & Hsplit & Hnot & Hbefore & Htimes).
    split; [| split].
    + exists before, after. split; [exact Hsplit |].
      intros s Hs. now apply Hocc, Hbefore.
    + now rewrite <- Hocc.
    + assert (Hin : In slot getTimeSlots)
        by (rewrite Hsplit; apply in_or_app; right; now left).
      destruct (slot_times requestedDate slot Hin) as (hour & Hh & Heq).
      exists hour. split; [exact Hh | congruence].
  - rewrite firstFreeSlot_None. split.
    + intros H. repeat split; apply Hocc, H; simpl; auto 6.
    + intros (H1 & H2 & H3 & H4) s Hs. apply Hocc.
      simpl in Hs. destruct Hs as [<- | [<- | [<- | [<- | []]]]]; assumption.
Qed.

(** On an empty day the first slot is offered; on a day whose first two
    slots are pending and in progress, the third. *)
Example findAvailableSlot_third :
  fst (findAvailableSlot Scenario.june10
         (Scenario.world
            [Scenario.booking 2 Scenario.june10 "16:00-18:00" 16 in_progress;
             Scenario.booking 2 Scenario.june10 "14:00-16:00" 14 pending;
             Scenario.booking 2 Scenario.june10 "18:00-20:00" 18 cancelled]
            (ymd 2025 6 2)))
  = Returned (Some ("18:00-20:00",
                    Some (Scenario.june10 + 18 * msPerHour,
                          Scenario.june10 + 20 * msPerHour))).
Proof. vm_compute. reflexivity. Qed.

End SlotAllocator.

(* ===================================================================== *)
(** * Booking window *)
(* ===================================================================== *)

Section BookingWindow.
Import DateUtils Runtime AppointmentModel AppointmentService Spec.

(** The [$group] stage counts, for each date string, the documents that
    carry it. *)
Lemma groupByDate_lookup (docs : list IAppointment) (s : string) :
  groupByDate docs !! s
  = let n := length (filter (fun a => isoDateString (appointmentDate a) = s) docs) in
    if decide (n = 0%nat) then None else Some (Z.of_nat n).
Proof.
  induction docs as [| a docs IH]; [reflexivity |].
  cbn [groupByDate foldr]. fold (groupByDate docs).
  destruct (decide (isoDateString (appointmentDate a) = s)) as [Heq | Hne].
  - rewrite filter_cons_True by assumption. subst s. cbv zeta.
    rewrite lookup_insert_eq, IH. cbv zeta.
    cbn [length]. generalize (length (filter
      (fun a0 => isoDateString (appointmentDate a0) = isoDateString (appointmentDate a))
      docs)) as n. intros n.
    rewrite (decide_False (P := S n = 0%nat)) by lia.
    destruct (decide (n = 0%nat)) as [-> | Hn]; unfold default; cbn [from_option id]; f_equal; lia.
  - rewrite filter_cons_False by assumption.
    rewrite lookup_insert_ne by assumption. apply IH.
Qed.

(** The pipeline lists, without repetition, the date strings that at least
    four matched documents carry. *)
Lemma pipeline_spec (w : World) (from to : Date) :
  NoDup (pipeline from to (appointments (db w)))
  /\ forall s, s ∈ pipeline from to (appointments (db w))
               <-> (4 <= activeOn w from to s)%nat.
Proof.
  unfold pipeline. split; [apply NoDup_fst_map_to_list |].
  intros s. unfold activeOn. rewrite list_elem_of_fmap. split.
  - intros ([k v] & -> & Hin). apply elem_of_map_to_list in Hin.
    apply map_lookup_filter_Some in Hin as [Hlook Hv]. simpl in *.
    rewrite groupByDate_lookup in Hlook. cbn zeta in Hlook.
    destruct (decide _); [discriminate |]. injection Hlook as <-. lia.
  - intros Hn.
    exists (s, Z.of_nat (length (filter (fun a => isoDateString (appointmentDate a) = s)
                                   (filter (activeBetween from to) (appointments (db w)))))).
    split; [reflexivity |].
    apply elem_of_map_to_list, map_lookup_filter_Some. split; [| simpl; lia].
    rewrite groupByDate_lookup. cbn zeta. rewrite decide_False by lia. reflexivity.
Qed.

(** [addMonths] moves a midnight to a midnight, so the number of days the
    policy computes is the exact distance in days. *)
Lemma addMonths_midnight (t : Date) (months : Z) :
  addMonths (Day t * msPerDay) months
  = MakeDay (getFullYear (Day t * msPerDay))
            (getMonth (Day t * msPerDay) + months)
            (getDate (Day t * msPerDay)) * msPerDay.
Proof.
  unfold addMonths, setMonth, TimeWithinDay.
  rewrite Z.mod_mul by (unfold msPerDay; lia). lia.
Qed.

Lemma totalDaysInRange_exact (t : Date) :
  let today := setHours t 0 0 0 0 in
  Math_ceil_div (addMonths today 3 - today) (1000 * 60 * 60 * 24)
  = Day (addMonths today 3) - Day today.
Proof.
  cbv zeta. rewrite startOfDay_eq, addMonths_midnight.
  set (m := MakeDay _ _ _). change (1000 * 60 * 60 * 24) with msPerDay.
  unfold Math_ceil_div, Day.
  rewrite !Z.div_mul by (unfold msPerDay; lia).
  replace (- (m * msPerDay - t / msPerDay * msPerDay))
    with ((t / msPerDay - m) * msPerDay) by lia.
  rewrite Z.div_mul by (unfold msPerDay; lia). lia.
Qed.

Lemma validateBookingWindow_run (w : World) (requestedDate : Date) :
  validateBookingWindow requestedDate w
  = (Returned
       (let today := setHours (now w) 0 0 0 0 in
        let requestedDateOnly := setHours requestedDate 0 0 0 0 in
        if requestedDateOnly <? today then (false, Some msgPast)
        else
          let threeMonthsFromNow := addMonths today 3 in
          if requestedDateOnly <=? threeMonthsFromNow then (true, None)
          else
            let fullyBookedDates :=
              pipeline today threeMonthsFromNow (appointments (db w)) in
            let totalDaysInRange :=
              Math_ceil_div (threeMonthsFromNow - today) (1000 * 60 * 60 * 24) in
            if totalDaysInRange <=? Z.of_nat (length fullyBookedDates) then
              if requestedDateOnly <=? addMonths today 6 then (true, None)
              else (false, Some msgSixMonths)
            else (false, Some msgThreeMonths)),
     w).
Proof.
  unfold validateBookingWindow, getFullyBookedDatesInRange, bind, gets, ret.
  cbv zeta beta iota.
  destruct (setHours requestedDate 0 0 0 0 <? setHours (now w) 0 0 0 0);
    [reflexivity |].
  destruct (setHours requestedDate 0 0 0 0
            <=? addMonths (setHours (now w) 0 0 0 0) 3); [reflexivity |].
  destruct (Math_ceil_div _ _ <=? _); [| reflexivity].
  destruct (setHours requestedDate 0 0 0 0
            <=? addMonths (setHours (now w) 0 0 0 0) 6); reflexivity.
Qed.

(** What the window policy computes.  [validateBookingWindow] only reads
    the store.
    It rejects every date before today and accepts every date from today
    up to today + 3 months.  Beyond that it accepts exactly when the
    number of date strings that carry at least four active appointments
    dated within the window has reached the number of days from today to
    today + 3 months, and the date is at most today + 6 months; when that
    number is not reached it answers with the three-months message, and
    when it is reached but the date is too far, with the six-months one. *)
Theorem validateBookingWindow_policy (w : World) (requestedDate : Date) :
  exists verdict fullyBooked,
    validateBookingWindow requestedDate w = (Returned verdict, w)
    /\ NoDup fullyBooked
    /\ (forall s, s ∈ fullyBooked
                  <-> (4 <= activeOn w (setHours (now w) 0 0 0 0)
                                       (addMonths (setHours (now w) 0 0 0 0) 3) s)%nat)
    /\ (setHours requestedDate 0 0 0 0 < setHours (now w) 0 0 0 0 ->
        verdict = (false, Some msgPast))
    /\ (setHours (now w) 0 0 0 0 <= setHours requestedDate 0 0 0 0
        <= addMonths (setHours (now w) 0 0 0 0) 3 ->
        verdict = (true, None))
    /\ (setHours (now w) 0 0 0 0 <= setHours requestedDate 0 0 0 0 ->
        addMonths (setHours (now w) 0 0 0 0) 3 < setHours requestedDate 0 0 0 0 ->
        let totalDays := Day (addMonths (setHours (now w) 0 0 0 0) 3)
                         - Day (setHours (now w) 0 0 0 0) in
        (fst verdict = true <->
           totalDays <= Z.of_nat (length fullyBooked)
           /\ setHours requestedDate 0 0 0 0
              <= addMonths (setHours (now w) 0 0 0 0) 6)
        /\ (Z.of_nat (length fullyBooked) < totalDays ->
            verdict = (false, Some msgThreeMonths))
        /\ (totalDays <= Z.of_nat (length fullyBooked) ->
            addMonths (setHours (now w) 0 0 0 0) 6 < setHours requestedDate 0 0 0 0 ->
            verdict = (false, Some msgSixMonths))).
Proof.
  rewrite validateBookingWindow_run.
  pose proof (totalDaysInRange_exact (now w)) as Htotal. cbv zeta in Htotal.
  destruct (pipeline_spec w (setHours (now w) 0 0 0 0)
              (addMonths (setHours (now w) 0 0 0 0) 3)) as [Hnodup Hmem].
  set (today := setHours (now w) 0 0 0 0) in *.
  set (requested := setHours requestedDate 0 0 0 0) in *.
  set (three := addMonths today 3) in *.
  set (six := addMonths today 6) in *.
  set (booked := pipeline today three (appointments (db w))) in *.
  eexists. exists booked. split; [reflexivity |].
  split; [exact Hnodup |]. split; [exact Hmem |].
  cbv zeta. fold three six. fold booked. rewrite Htotal.
  destruct (requested <? today) eqn:Hpast;
    [apply Z.ltb_lt in Hpast | apply Z.ltb_ge in Hpast];
  (destruct (requested <=? three) eqn:Hthree;
    [apply Z.leb_le in Hthree | apply Z.leb_gt in Hthree]);
  (destruct (Day three - Day today <=? Z.of_nat (length booked)) eqn:Hsat;
    [apply Z.leb_le in Hsat | apply Z.leb_gt in Hsat]);
  (destruct (requested <=? six) eqn:Hsix;
    [apply Z.leb_le in Hsix | apply Z.leb_gt in Hsix]);
  repeat split; intros; try reflexivity; try lia;
    cbn [fst] in *; try discriminate;
    try (match goal with H : _ /\ _ |- _ => destruct H; lia end).
Qed.

(** Scenario C: a date 200 days out, with the next three months not
    saturated, is refused with the three-months message. *)
Lemma validateBookingWindow_policy_witness :
  fst (validateBookingWindow (Scenario.march1 + 200 * msPerDay) Scenario.quiet)
  = Returned (false, Some msgThreeMonths).
Proof.
  destruct (validateBookingWindow_policy Scenario.quiet
              (Scenario.march1 + 200 * msPerDay))
    as (verdict & booked & Hrun & _ & Hmem & _ & _ & Hfar).
  rewrite Hrun. cbn [fst]. f_equal.
  assert (Hnone : booked = []).
  { destruct booked as [| s rest]; [reflexivity |].
    assert (Hs : s ∈ s :: rest) by (left).
    apply (proj1 (Hmem s)) in Hs. vm_compute in Hs. lia. }
  subst booked.
  refine (proj1 (proj2 (Hfar _ _)) _);
    [apply Z.leb_le | apply Z.ltb_lt | apply Z.ltb_lt]; vm_compute; reflexivity.
Defined.

(** C7 at the failing input.  Today is 1 March 2025, so the window runs
    to 1 June and holds 93 dates.  With 15 March entirely free and the 92
    other dates fully booked, a request for 15 July, beyond the window, is
    accepted, although the window is not saturated: 15 March still offers
    its first slot.  The same happens when only the last date, 1 June, is
    free.  The count of fully booked dates (92) is compared with the number
    of days between the two ends of the window (92), not with the number
    of dates in it (93). *)
Lemma validateBookingWindow_extends_early :
  let today := setHours (now Scenario.gapInMarch) 0 0 0 0 in
  let three := addMonths today 3 in
  isoDateString today = "2025-03-01"
  /\ isoDateString three = "2025-06-01"
  /\ three < Scenario.july15
  /\ length (windowDays today three) = 93%nat
  /\ length (fullyBookedDays Scenario.gapInMarch today three) = 92%nat
  /\ fst (findAvailableSlot (ymd 2025 3 15) Scenario.gapInMarch)
     = Returned (Some ("14:00-16:00",
                       createDateTimeFromSlot (ymd 2025 3 15) "14:00-16:00"))
  /\ fst (validateBookingWindow Scenario.july15 Scenario.gapInMarch)
     = Returned (true, None)
  /\ length (fullyBookedDays Scenario.nearlySaturated today three) = 92%nat
  /\ fst (findAvailableSlot three Scenario.nearlySaturated)
     = Returned (Some ("14:00-16:00",
                       createDateTimeFromSlot three "14:00-16:00"))
  /\ fst (validateBookingWindow Scenario.july15 Scenario.nearlySaturated)
     = Returned (true, None)
  /\ Math_ceil_div (three - today) (1000 * 60 * 60 * 24) = 92.
Proof. vm_compute. repeat split; reflexivity. Qed.

(** With every one of the 93 dates fully booked the horizon is extended,
    and with two dates free it is not. *)
Example validateBookingWindow_saturated :
  fst (validateBookingWindow Scenario.july15 Scenario.saturated)
  = Returned (true, None)
  /\ fst (validateBookingWindow Scenario.july15
            (Scenario.world (Scenario.fullDays Scenario.march1 91)
                            (Scenario.march1 + 9 * msPerHour)))
     = Returned (false, Some msgThreeMonths).
Proof. vm_compute. split; reflexivity. Qed.

End BookingWindow.

(* ===================================================================== *)
(** * The unique index on appointments *)
(* ===================================================================== *)

Section UniqueIndex.
Import DateUtils Runtime Mongoose AppointmentModel Spec.

(** What the index does give: a document that is saved shares its date,
    slot and status with no active document already stored. *)
Lemma Appointment_create_unique (w w' : World) (a : IAppointment) (id : nat) :
  Appointment_create a w = (Returned (id, a), w') ->
  isActiveStatus (status a) = true ->
  forall b, b ∈ appointments (db w) ->
    isActiveStatus (status b) = true ->
    appointmentDate b = appointmentDate a ->
    timeSlot b = timeSlot a ->
    status b <> status a.
Proof.
  unfold Appointment_create, bind, gets, throw, write.
  destruct (negb (validate a)); [discriminate |].
  intros Hrun Hact b Hb Hbact Hdate Hslot Hstatus.
  assert (Hdup : duplicateKey (appointments (db w)) a = true).
  { unfold duplicateKey, partialFilterExpression. rewrite Hact. cbn [andb].
    apply existsb_exists. exists b. split; [now apply list_elem_of_In |].
    unfold sameIndexKey. rewrite Hbact, Hdate, Hslot, Hstatus.
    rewrite Z.eqb_refl, String.eqb_refl, bool_decide_eq_true_2 by reflexivity.
    reflexivity. }
  destruct (writesLeft w) as [[| n] |]; cbn in Hrun;
    try discriminate; rewrite Hdup in Hrun; discriminate.
Qed.

(** C1 at the failing input.  The first slot of 10 June is taken by a
    confirmed appointment.  Saving a pending appointment for the same date
    and slot succeeds, and the store then holds two active appointments
    for that date and slot; so does saving a confirmed appointment whose
    date carries another time of the same day.  Only a document with the
    same timestamp, slot and status is refused. *)
Lemma unique_index_keyed_on_status :
  let first := Scenario.booking 2 Scenario.june10 "14:00-16:00" 14 confirmed in
  let second := Scenario.booking 1 Scenario.june10 "14:00-16:00" 14 pending in
  let later :=
    Scenario.booking 1 (Scenario.june10 + 8 * msPerHour) "14:00-16:00" 14 confirmed in
  let same := Scenario.booking 1 Scenario.june10 "14:00-16:00" 14 confirmed in
  appointments (db Scenario.firstSlotTaken) = [first]
  /\ fst (Appointment_create second Scenario.firstSlotTaken)
     = Returned (1%nat, second)
  /\ appointments (db (snd (Appointment_create second Scenario.firstSlotTaken)))
     = [first; second]
  /\ occupies Scenario.june10 "14:00-16:00" first
  /\ occupies Scenario.june10 "14:00-16:00" second
  /\ fst (Appointment_create later Scenario.firstSlotTaken)
     = Returned (1%nat, later)
  /\ occupies Scenario.june10 "14:00-16:00" later
  /\ fst (Appointment_create same Scenario.firstSlotTaken)
     = Thrown DuplicateKeyError.
Proof. vm_compute. repeat split; reflexivity. Qed.

End UniqueIndex.

(* ===================================================================== *)
(** * Cancellation *)
(* ===================================================================== *)

Section Cancellation.
Import DateUtils Runtime Mongoose Http AppointmentModel Spec.

Lemma findOne_by_id (l : list IAppointment) (id uid : nat) (a : IAppointment) :
  l !! id = Some a -> userId a = uid ->
  snd <$> list_find (fun d : nat * IAppointment =>
                       fst d = id /\ userId (snd d) = uid)
            (imap pair l)
  = Some (id, a).
Proof.
  intros Hl Hu.
  assert (Hfind : list_find (fun d : nat * IAppointment =>
                               fst d = id /\ userId (snd d) = uid)
                    (imap pair l) = Some (id, (id, a))).
  { apply list_find_Some. split; [| split].
    - rewrite list_lookup_imap, Hl. reflexivity.
    - split; [reflexivity | assumption].
    - intros j [k b] Hj Hlt [Hk _]. rewrite list_lookup_imap in Hj.
      destruct (l !! j); [| discriminate]. cbn in Hj. injection Hj as <- <-.
      cbn in Hk. lia. }
  rewrite Hfind. reflexivity.
Qed.

(** On both routes an appointment that is cancelled or completed is
    refused, and nothing changes: a repeated cancellation refunds nothing. *)
Lemma owner_cancel_terminal (w : World) (id : nat) (a : IAppointment) :
  appointments (db w) !! id = Some a ->
  status a = cancelled \/ status a = completed ->
  exists resp,
    AppointmentController.cancelAppointment (userId a) id w = (Returned resp, w)
    /\ statusCode resp = 400.
Proof.
  intros Ha Hst.
  unfold AppointmentController.cancelAppointment, tryCatch, bind,
    Appointment_findOne, gets.
  rewrite (findOne_by_id _ id (userId a) a Ha eq_refl).
  destruct Hst as [-> | ->]; cbn; eexists; split; reflexivity.
Qed.

Lemma admin_cancel_terminal (w : World) (id : nat) (a : IAppointment)
    (reason : option string) :
  appointments (db w) !! id = Some a ->
  status a = cancelled \/ status a = completed ->
  exists resp,
    AdminController.cancelAppointment id reason w = (Returned resp, w)
    /\ statusCode resp = 400.
Proof.
  intros Ha Hst.
  unfold AdminController.cancelAppointment, tryCatch, bind,
    Appointment_findById, gets.
  rewrite Ha.
  destruct Hst as [-> | ->]; cbn; eexists; split; reflexivity.
Qed.

(** The owner's route, on a store that does not fail: the appointment
    becomes cancelled and the owner is credited with exactly its price. *)
Lemma owner_cancel_refunds (w : World) (id : nat) (a : IAppointment)
    (u : UserModel.IUser) :
  writesLeft w = None ->
  appointments (db w) !! id = Some a ->
  users (db w) !! userId a = Some u ->
  0 <= price a ->
  status a <> cancelled -> status a <> completed ->
  exists w',
    AppointmentController.cancelAppointment (userId a) id w
    = (Returned (json 200 [("message", JStr "Appointment cancelled successfully");
                           ("refundedPoints", JNum (price a))]), w')
    /\ db w' = {| users := <[userId a :=
                              UserModel.withTotalPoints u
                                (UserModel.totalPoints u + price a)]> (users (db w));
                  packs := packs (db w);
                  appointments := <[id := withStatus a cancelled]> (appointments (db w));
                  purchases := purchases (db w) |}.
Proof.
  intros Hfuse Ha Hu Hprice Hs1 Hs2.
  unfold AppointmentController.cancelAppointment, tryCatch, bind,
    Appointment_findOne, gets.
  rewrite (findOne_by_id _ id (userId a) a Ha eq_refl).
  rewrite !bool_decide_eq_false_2 by assumption.
  destruct w as [[us pk ap pu] t si fuse lg]. cbn in Hfuse, Ha, Hu. subst fuse.
  unfold Appointment_save, User_findByIdAndUpdate_inc, User_findById,
    bind, gets, write, throw, ret, emit, modifyDb.
  cbn. unfold validate. cbn.
  apply Z.leb_le in Hprice. rewrite Hprice. cbn.
  rewrite Hu. cbn. rewrite lookup_insert_eq. cbn.
  eexists. split; reflexivity.
Qed.

(** The admin route, on the same input: the appointment becomes cancelled
    and no balance changes. *)
Lemma admin_cancel_keeps_balance (w : World) (id : nat) (a : IAppointment)
    (reason : option string) (u : UserModel.IUser) :
  writesLeft w = None ->
  appointments (db w) !! id = Some a ->
  users (db w) !! userId a = Some u ->
  0 <= price a ->
  status a <> cancelled -> status a <> completed ->
  exists resp w',
    AdminController.cancelAppointment id reason w = (Returned resp, w')
    /\ statusCode resp = 200
    /\ users (db w') = users (db w)
    /\ status <$> appointments (db w') !! id = Some cancelled
    /\ log w' = (log w ++ [AppointmentSaved id cancelled])%list.
Proof.
  intros Hfuse Ha Hu Hprice Hs1 Hs2.
  unfold AdminController.cancelAppointment, tryCatch, bind,
    Appointment_findById, gets.
  rewrite Ha. rewrite !bool_decide_eq_false_2 by assumption.
  destruct w as [[us pk ap pu] t si fuse lg]. cbn in Hfuse, Ha, Hu. subst fuse.
  unfold Appointment_save, User_findById, bind, gets, write, throw, ret, emit,
    modifyDb.
  apply Z.leb_le in Hprice.
  assert (Hlen : (id < length ap)%nat) by (now apply lookup_lt_Some in Ha).
  destruct reason as [reason |]; cbn; unfold validate; cbn; rewrite Hprice; cbn;
    rewrite Hu; cbn; eexists _, _; (split; [reflexivity |]); cbn;
    rewrite list_lookup_insert_eq by assumption; repeat split; reflexivity.
Qed.

(** C6 at the failing input.  Bob owns the confirmed appointment 0, price
    1000, and has no points.  Cancelled on the owner's route, the
    appointment becomes cancelled and bob has 1000 points; cancelled on the
    admin route, the appointment becomes cancelled and bob still has none:
    the only write is the save of the appointment. *)
Lemma admin_cancel_refunds_nothing :
  let owner := AppointmentController.cancelAppointment 2 0 Scenario.firstSlotTaken in
  let admin := AdminController.cancelAppointment 0 None Scenario.firstSlotTaken in
  UserModel.totalPoints <$> users (db Scenario.firstSlotTaken) !! 2%nat = Some 0
  /\ price <$> appointments (db Scenario.firstSlotTaken) !! 0%nat = Some 1000
  /\ fst owner
     = Returned (json 200 [("message", JStr "Appointment cancelled successfully");
                           ("refundedPoints", JNum 1000)])
  /\ status <$> appointments (db (snd owner)) !! 0%nat = Some cancelled
  /\ UserModel.totalPoints <$> users (db (snd owner)) !! 2%nat = Some 1000
  /\ (exists r, fst admin = Returned r /\ statusCode r = 200)
  /\ status <$> appointments (db (snd admin)) !! 0%nat = Some cancelled
  /\ UserModel.totalPoints <$> users (db (snd admin)) !! 2%nat = Some 0
  /\ log (snd admin) = [AppointmentSaved 0 cancelled].
Proof.
  vm_compute. repeat split; try reflexivity.
  eexists. split; reflexivity.
Qed.

End Cancellation.

(* ===================================================================== *)
(** * Purchase reconciliation *)
(* ===================================================================== *)

Section Reconciliation.
Import DateUtils Runtime Mongoose Http PurchaseModel Spec.
Import StripeService PackController StripeWebhook.

(** Under the unique index, a reference that belongs to somebody else's
    purchase matches no purchase of the requesting user. *)
Lemma findOne_foreign (d : Db) (uid id : nat) (intent : string) (p : IPurchase) :
  uniqueIntents d ->
  purchases d !! id = Some p ->
  stripePaymentIntentId p = intent ->
  userId p <> uid ->
  list_find (fun q => stripePaymentIntentId q = intent /\ userId q = uid)
            (purchases d) = None.
Proof.
  intros Huniq Hp Hintent Hother.
  apply list_find_None, Forall_forall. intros q Hq [Hqi Hqu].
  apply list_elem_of_lookup in Hq as [j Hj].
  assert (j = id) as -> by (apply (Huniq j id q p); congruence).
  congruence.
Qed.

(** C10.  On the client-confirm path the purchase is looked up by the
    payment reference and the requesting user together: for a reference
    that belongs to a purchase of another user, [confirmPurchase] answers
    404 PURCHASE_NOT_FOUND and leaves the store, and the processor,
    untouched. *)
Theorem confirmPurchase_foreign_not_found
    (w : World) (uid id : nat) (intent : string) (p : IPurchase) :
  uniqueIntents (db w) ->
  intent <> EmptyString ->
  purchases (db w) !! id = Some p ->
  stripePaymentIntentId p = intent ->
  userId p <> uid ->
  confirmPurchase uid intent w
  = (Returned (json 404 [("error", JStr "Purchase not found");
                         ("code", JStr "PURCHASE_NOT_FOUND")]),
     w).
Proof.
  intros Huniq Hne Hp Hintent Hother.
  unfold confirmPurchase, tryCatch, bind, Purchase_findOne, gets.
  apply String.eqb_neq in Hne. rewrite Hne.
  rewrite (findOne_foreign (db w) uid id intent p) by assumption.
  reflexivity.
Qed.


(** The first purchase with a reference is also the first purchase with
    that reference and its own user. *)
Lemma list_find_owner (l : list IPurchase) (intent : string) (id : nat) (p : IPurchase) :
  list_find (fun q => stripePaymentIntentId q = intent) l = Some (id, p) ->
  list_find (fun q => stripePaymentIntentId q = intent /\ userId q = userId p) l
  = Some (id, p).
Proof.
  intros Hfind. apply list_find_Some in Hfind as (Hl & Hx & Hbefore).
  apply list_find_Some. repeat split; auto.
  intros j z Hj Hlt [Hz _]. exact (Hbefore j z Hj Hlt Hz).
Qed.


(** On a store that does not fail, a reconciliation that does not go
    through credits nobody. *)
Lemma handleSuccessfulPayment_failure_credits_nothing
    (w w1 : World) (intent : string) (out : Outcome (option PaymentResult)) :
  writesLeft w = None ->
  handleSuccessfulPayment intent w = (out, w1) ->
  (forall r, out <> Returned (Some r)) ->
  users (db w1) = users (db w).
Proof.
  intros Hfuse Hrun Hfail.
  destruct w as [[us pk ap pu] t si fuse lg]. cbn in Hfuse. subst fuse.
  unfold handleSuccessfulPayment, Purchase_save, User_findByIdAndUpdate_inc,
    User_findById, Purchase_findOneAndUpdate_status, Purchase_findOne, populate,
    tryCatch, bind, gets, write, throw, ret, emit, modifyDb in Hrun.
  cbn in Hrun.
  repeat match type of Hrun with
         | context [match ?x with _ => _ end] =>
             lazymatch x with
             | context [match _ with _ => _ end] => fail
             | _ => let E := fresh "E" in destruct x eqn:E; cbn in Hrun
             end
         end.
  all: injection Hrun as <- <-; try reflexivity.
  all: try (exfalso; eapply Hfail; reflexivity).
  all: unfold validate in *; cbn in *; congruence.
Qed.







(** A reconciliation on a store that does not fail, of a purchase that
    has not succeeded, whose pack and owner exist. *)
Lemma handleSuccessfulPayment_fresh (w : World) (intent : string)
    (id : nat) (p : IPurchase) (pack : PackModel.IPack) (u : UserModel.IUser) :
  writesLeft w = None ->
  0 <= amount p ->
  list_find (fun q => stripePaymentIntentId q = intent) (purchases (db w))
    = Some (id, p) ->
  status p <> succeeded ->
  packs (db w) !! packId p = Some pack ->
  users (db w) !! userId p = Some u ->
  handleSuccessfulPayment intent w
  = (Returned (Some {| res_purchaseId := id;
                       res_purchase := credited p pack;
                       res_user := Some (UserModel.withTotalPoints u
                                  (UserModel.totalPoints u + PackModel.totalPoints pack));
                       res_pack := Some pack;
                       res_pointsAwarded := PackModel.totalPoints pack;
                       alreadyProcessed := false |}),
     {| db := creditedDb (db w) id p pack u;
        now := now w;
        stripeIntents := stripeIntents w;
        writesLeft := None;
        log := (log w ++ [PurchaseSaved id processing;
                           UserPointsIncremented (userId p) (PackModel.totalPoints pack);
                           PurchaseSaved id succeeded])%list |}).
Proof.
  intros Hfuse Hamount Hfind Hst Hpack Huser.
  destruct w as [d t si fuse lg]. cbn in *. subst fuse.
  unfold handleSuccessfulPayment, Purchase_save, User_findByIdAndUpdate_inc,
    User_findById, Purchase_findOneAndUpdate_status, Purchase_findOne, populate,
    tryCatch, bind, gets, write, throw, ret, emit, modifyDb.
  cbn. rewrite Hfind. cbn. rewrite Hpack, Huser.
  rewrite bool_decide_eq_false_2 by assumption.
  unfold validate. cbn.
  apply Z.leb_le in Hamount. rewrite Hamount. cbn.
  rewrite ?Huser. cbn.
  rewrite <- !app_assoc. reflexivity.
Qed.

(** C4 (as the code has it).  For a purchase that the store finds under
    the reference, on a store that does not fail: the owner's confirmation
    of a purchase in processing state is answered 202 and changes nothing;
    for a purchase that is neither succeeded nor processing the
    confirmation first queries the processor, and only when the answer is
    succeeded is the purchase marked processing and the owner credited,
    otherwise nothing is written; the webhook for a succeeded payment
    marks such a purchase processing and credits the owner without any
    query to the processor. *)
Theorem reconciliation_entry_points
    (w : World) (intent : string) (id : nat) (p : IPurchase)
    (pack : PackModel.IPack) (u : UserModel.IUser) :
  intent <> EmptyString ->
  writesLeft w = None ->
  list_find (fun q => stripePaymentIntentId q = intent) (purchases (db w))
    = Some (id, p) ->
  0 <= amount p ->
  packs (db w) !! packId p = Some pack ->
  users (db w) !! userId p = Some u ->
  (status p = processing ->
     confirmPurchase (userId p) intent w
     = (Returned (json 202 [("message", JStr "Purchase is being processed, please wait");
                            ("status", JStr "processing")]),
        w))
  /\ (status p <> succeeded -> status p <> processing ->
      forall s, stripeIntents w !! intent = Some s -> s <> Stripe.succeeded ->
      exists resp w',
        confirmPurchase (userId p) intent w = (Returned resp, w')
        /\ statusCode resp = 400
        /\ db w' = db w
        /\ log w' = (log w ++ [StripeRetrieved intent])%list)
  /\ (status p <> succeeded -> status p <> processing ->
      stripeIntents w !! intent = Some Stripe.succeeded ->
      exists resp w',
        confirmPurchase (userId p) intent w = (Returned resp, w')
        /\ statusCode resp = 200
        /\ field "pointsAwarded" (body resp)
           = Some (JNum (PackModel.pointsIncluded pack + PackModel.bonusPoints pack))
        /\ db w' = creditedDb (db w) id p pack u
        /\ log w' = (log w ++ [StripeRetrieved intent;
                               PurchaseSaved id processing;
                               UserPointsIncremented (userId p)
                                 (PackModel.pointsIncluded pack + PackModel.bonusPoints pack);
                               PurchaseSaved id succeeded])%list)
  /\ (status p <> succeeded -> status p <> processing ->
      exists w',
        handleStripeWebhook (Stripe.payment_intent_succeeded intent) w
        = (Returned acknowledged, w')
        /\ db w' = creditedDb (db w) id p pack u
        /\ log w' = (log w ++ [PurchaseSaved id processing;
                               UserPointsIncremented (userId p)
                                 (PackModel.pointsIncluded pack + PackModel.bonusPoints pack);
                               PurchaseSaved id succeeded])%list).
Proof.
  intros Hne Hfuse Hfind Hamount Hpack Huser.
  pose proof (list_find_owner _ _ _ _ Hfind) as Hown.
  apply String.eqb_neq in Hne.
  split; [| split; [| split]].
  - intros Hst.
    unfold confirmPurchase, tryCatch, bind, Purchase_findOne, gets.
    rewrite Hne, Hown. cbn. rewrite Hst. reflexivity.
  - intros Hs1 Hs2 s Hstripe Hs.
    unfold confirmPurchase, getPaymentIntent, Stripe_retrieve, tryCatch, bind,
      Purchase_findOne, gets, emit, ret.
    rewrite Hne, Hown. cbn.
    rewrite !bool_decide_eq_false_2 by assumption.
    rewrite Hstripe. cbn.
    destruct s; try congruence; cbn; eexists _, _; repeat split; reflexivity.
  - intros Hs1 Hs2 Hstripe.
    unfold confirmPurchase, getPaymentIntent, Stripe_retrieve, tryCatch, bind,
      Purchase_findOne, gets, emit, ret.
    rewrite Hne, Hown. cbn -[handleSuccessfulPayment].
    rewrite !bool_decide_eq_false_2 by assumption.
    rewrite Hstripe. cbn -[handleSuccessfulPayment].
    rewrite bool_decide_eq_true_2 by reflexivity.
    erewrite handleSuccessfulPayment_fresh by (cbn; eassumption).
    cbn. eexists _, _. split; [reflexivity |].
    repeat split; cbn; rewrite <- ?app_assoc; reflexivity.
  - intros Hs1 Hs2.
    unfold handleStripeWebhook, tryCatch, bind.
    erewrite handleSuccessfulPayment_fresh by eassumption.
    eexists. split; [reflexivity |]. split; reflexivity.
Qed.

















Lemma uniqueIntents_checkout s paid : uniqueIntents (db (Scenario.checkout s paid)).
Proof.
  intros i j p q Hi Hj _.
  destruct i as [| i]; [| destruct i; discriminate].
  destruct j as [| j]; [reflexivity | destruct j; discriminate].
Qed.

(** Bob confirms alice's paid purchase: not found, nothing credited. *)
Lemma confirmPurchase_foreign_not_found_witness :
  let w := Scenario.checkout pending Stripe.succeeded in
  confirmPurchase 2 "pi_alice" w
  = (Returned (json 404 [("error", JStr "Purchase not found");
                         ("code", JStr "PURCHASE_NOT_FOUND")]),
     w).
Proof.
  intros w.
  apply (confirmPurchase_foreign_not_found w 2 0 "pi_alice"
           (Scenario.purchaseOf 1 "pi_alice" pending)).
  - apply uniqueIntents_checkout.
  - discriminate.
  - reflexivity.
  - reflexivity.
  - simpl. lia.
Defined.



Lemma reconciliation_entry_points_witness :
  let w := Scenario.checkout pending Stripe.succeeded in
  exists resp w',
    confirmPurchase 1 "pi_alice" w = (Returned resp, w')
    /\ statusCode resp = 200
    /\ field "pointsAwarded" (body resp) = Some (JNum 3300)
    /\ log w' = [StripeRetrieved "pi_alice"; PurchaseSaved 0 processing;
                 UserPointsIncremented 1 3300; PurchaseSaved 0 succeeded].
Proof.
  intros w.
  destruct (reconciliation_entry_points w "pi_alice" 0
              (Scenario.purchaseOf 1 "pi_alice" pending)
              Scenario.goldPack Scenario.alice)
    as (_ & _ & Hpaid & _).
  - discriminate.
  - reflexivity.
  - vm_compute. reflexivity.
  - vm_compute. discriminate.
  - vm_compute. reflexivity.
  - vm_compute. reflexivity.
  - destruct Hpaid as (resp & w' & Hrun & Hcode & Hpoints & _ & Hlog);
      [discriminate | discriminate | vm_compute; reflexivity |].
    exists resp, w'. repeat split; assumption.
Defined.

(** The claim that both entry points mark the purchase processing and
    then query the processor fails.  On the confirm path the query comes
    first, and a payment that the processor does not report as succeeded
    is never marked processing.  On the webhook path the processor is not
    queried at all, and a purchase found in processing state is processed
    and credited again. *)
Lemma reconciliation_order_differs :
  log (snd (confirmPurchase 1 "pi_alice"
              (Scenario.checkout pending Stripe.succeeded)))
  = [StripeRetrieved "pi_alice"; PurchaseSaved 0 processing;
     UserPointsIncremented 1 3300; PurchaseSaved 0 succeeded]
  /\ log (snd (confirmPurchase 1 "pi_alice"
                 (Scenario.checkout pending Stripe.requires_payment_method)))
     = [StripeRetrieved "pi_alice"]
  /\ log (snd (handleStripeWebhook (Stripe.payment_intent_succeeded "pi_alice")
                 (Scenario.checkout pending Stripe.succeeded)))
     = [PurchaseSaved 0 processing; UserPointsIncremented 1 3300;
        PurchaseSaved 0 succeeded]
  /\ log (snd (handleStripeWebhook (Stripe.payment_intent_succeeded "pi_alice")
                 (Scenario.checkout processing Stripe.succeeded)))
     = [PurchaseSaved 0 processing; UserPointsIncremented 1 3300;
        PurchaseSaved 0 succeeded]
  /\ fst (confirmPurchase 1 "pi_alice"
            (Scenario.checkout processing Stripe.succeeded))
     = Returned (json 202 [("message", JStr "Purchase is being processed, please wait");
                           ("status", JStr "processing")]).
Proof. vm_compute. repeat split; reflexivity. Qed.

End Reconciliation.

(* ===================================================================== *)
(** * Booking and the points ledger *)
(* ===================================================================== *)

Section Ledger.
Import DateUtils PricingService Runtime Mongoose Http Spec.
Import AppointmentService AppointmentController UserModel.

Lemma validateBookingWindow_reads (w : World) (d : Date) :
  exists verdict, validateBookingWindow d w = (Returned verdict, w).
Proof. rewrite validateBookingWindow_run. eexists. reflexivity. Qed.

Lemma findAvailableSlot_reads (w : World) (d : Date) :
  exists slot, findAvailableSlot d w = (Returned slot, w).
Proof. eexists. reflexivity. Qed.

(** The three outcomes of a booking request: nothing written; the
    appointment created and the balance debited; or, when the store
    rejects the second write, the appointment created and the balance
    left as it was. *)
Lemma bookAppointment_outcomes
    (w : World) (uid : nat) (st : ServiceType) (d : Date) (loc : string)
    (notes : option string) :
  exists resp w',
    bookAppointment uid st d loc notes w = (Returned resp, w')
    /\ ((statusCode resp <> 201 /\ db w' = db w)
        \/ (exists u slot start finish,
              statusCode resp = 201
              /\ users (db w) !! uid = Some u
              /\ calculateAppointmentPrice st d <= totalPoints u
              /\ fst (findAvailableSlot d w)
                 = Returned (Some (slot, Some (start, finish)))
              /\ db w'
                 = {| users := <[uid := withTotalPoints u
                                          (totalPoints u
                                           - calculateAppointmentPrice st d)]>
                                 (users (db w));
                      packs := packs (db w);
                      appointments :=
                        (appointments (db w)
                         ++ [booked uid st d loc notes slot start finish])%list;
                      purchases := purchases (db w) |})
        \/ (exists slot start finish,
              statusCode resp = 500
              /\ writesLeft w = Some 1%nat
              /\ fst (findAvailableSlot d w)
                 = Returned (Some (slot, Some (start, finish)))
              /\ db w'
                 = {| users := users (db w);
                      packs := packs (db w);
                      appointments :=
                        (appointments (db w)
                         ++ [booked uid st d loc notes slot start finish])%list;
                      purchases := purchases (db w) |})).
Proof.
  destruct (validateBookingWindow_reads w d) as [[ok msg] Hv].
  destruct (findAvailableSlot_reads w d) as [slot Hslot].
  unfold bookAppointment, tryCatch, bind.
  rewrite Hv. cbn [fst snd].
  destruct ok; cbn [negb].
  2:{ eexists _, _. split; [reflexivity |]. left. split; [cbn; lia | reflexivity]. }
  unfold getUserAppointmentCount, Appointment_countDocuments, gets, ret.
  destruct (3 <=? _).
  { eexists _, _. split; [reflexivity |]. left. split; [cbn; lia | reflexivity]. }
  rewrite Hslot.
  destruct slot as [[label times] |].
  2:{ eexists _, _. split; [reflexivity |]. left. split; [cbn; lia | reflexivity]. }
  unfold User_findById, gets.
  destruct (users (db w) !! uid) as [u |] eqn:Hu.
  2:{ eexists _, _. split; [reflexivity |]. left. split; [cbn; lia | reflexivity]. }
  destruct (totalPoints u <? calculateAppointmentPrice st d) eqn:Hfunds.
  { eexists _, _. split; [reflexivity |]. left. split; [cbn; lia | reflexivity]. }
  apply Z.ltb_ge in Hfunds.
  clear Hv Hslot. unfold booked.
  set (price := calculateAppointmentPrice st d) in *. clearbody price.
  destruct w as [[us pk ap pu] t si fuse lg]. cbn [db writesLeft users] in *.
  unfold createAppointment, Appointment_create, deductUserPoints,
    User_findByIdAndUpdate_inc, User_findById, bind, gets, write, throw, ret,
    emit, modifyDb.
  cbn.
  destruct times as [[start finish] |]; cbn.
  2:{ eexists _, _. split; [reflexivity |]. left. split; [cbn; lia | reflexivity]. }
  unfold AppointmentModel.validate. cbn.
  destruct (0 <=? price); cbn.
  2:{ eexists _, _. split; [reflexivity |]. left. split; [cbn; lia | reflexivity]. }
  destruct fuse as [[| [| n]] |]; cbn;
    try (match goal with
         | |- context [existsb ?f ap] => destruct (existsb f ap); cbn
         end);
    rewrite ?Hu; cbn;
    eexists _, _; (split; [reflexivity |]); cbn.
  all: first
    [ solve [left; split; [lia | reflexivity]]
    | solve [right; left; exists u, label, start, finish;
             repeat split; try reflexivity; assumption]
    | solve [right; right; exists label, start, finish;
             repeat split; reflexivity] ].
Qed.


(** C5 (as the code has it).  A booking request always answers.  Either
    it writes nothing (every rejection by the window, the cap, the slot
    search, the user lookup or the balance check, and every failure to
    persist the appointment); or it creates the confirmed appointment in
    the allocated slot and debits the balance by exactly the computed
    price; or the store rejects the debit after the appointment was
    persisted, and the appointment stays without its debit.  On a store
    that does not fail only the first two occur. *)
Theorem bookAppointment_create_then_debit
    (w : World) (uid : nat) (st : ServiceType) (d : Date) (loc : string)
    (notes : option string) :
  exists resp w',
    bookAppointment uid st d loc notes w = (Returned resp, w')
    /\ ((statusCode resp <> 201 /\ db w' = db w)
        \/ (exists u slot start finish,
              statusCode resp = 201
              /\ users (db w) !! uid = Some u
              /\ calculateAppointmentPrice st d <= totalPoints u
              /\ fst (findAvailableSlot d w)
                 = Returned (Some (slot, Some (start, finish)))
              /\ db w'
                 = {| users := <[uid := withTotalPoints u
                                          (totalPoints u
                                           - calculateAppointmentPrice st d)]>
                                 (users (db w));
                      packs := packs (db w);
                      appointments :=
                        (appointments (db w)
                         ++ [booked uid st d loc notes slot start finish])%list;
                      purchases := purchases (db w) |})
        \/ (exists slot start finish,
              statusCode resp = 500
              /\ writesLeft w = Some 1%nat
              /\ fst (findAvailableSlot d w)
                 = Returned (Some (slot, Some (start, finish)))
              /\ db w'
                 = {| users := users (db w);
                      packs := packs (db w);
                      appointments :=
                        (appointments (db w)
                         ++ [booked uid st d loc notes slot start finish])%list;
                      purchases := purchases (db w) |}))
    /\ (writesLeft w = None ->
        db w' = db w
        \/ exists u slot start finish,
             statusCode resp = 201
             /\ users (db w) !! uid = Some u
             /\ db w'
                = {| users := <[uid := withTotalPoints u
                                         (totalPoints u
                                          - calculateAppointmentPrice st d)]>
                                (users (db w));
                     packs := packs (db w);
                     appointments :=
                       (appointments (db w)
                        ++ [booked uid st d loc notes slot start finish])%list;
                     purchases := purchases (db w) |}).
Proof.
  destruct (bookAppointment_outcomes w uid st d loc notes)
    as (resp & w' & Hrun & Hcases).
  exists resp, w'. split; [assumption |]. split; [assumption |].
  intros Hfuse.
  destruct Hcases as [[_ Hsame] | [(u & slot & start & finish & H201 & Hu & _ & _ & Hdb)
                                  | (slot & start & finish & _ & Hone & _)]].
  - now left.
  - right. exists u, slot, start, finish. auto.
  - congruence.
Qed.

(** Scenario A: alice, with 2000 points, books a basic cleaning on a plain
    Tuesday: the appointment is confirmed in the first slot and her balance
    becomes 1000. *)
Lemma bookAppointment_create_then_debit_witness :
  let w := Scenario.world [] (ymd 2025 6 2) in
  exists resp w',
    bookAppointment 1 basic Scenario.june10 "Havnegade 1, Odense" None w
    = (Returned resp, w')
    /\ statusCode resp = 201
    /\ appointments (db w')
       = [Scenario.booking 1 Scenario.june10 "14:00-16:00" 14
            AppointmentModel.confirmed]
    /\ totalPoints <$> users (db w') !! 1%nat = Some 1000.
Proof.
  intros w.
  destruct (bookAppointment_create_then_debit w 1 basic Scenario.june10
              "Havnegade 1, Odense" None)
    as (resp & w' & Hrun & _ & Hsafe).
  exists resp, w'. split; [assumption |].
  destruct (Hsafe eq_refl)
    as [Hsame | (u & slot & start & finish & H201 & Hu & Hdb)].
  - exfalso. vm_compute in Hrun. injection Hrun as _ Hw. subst w'.
    discriminate Hsame.
  - vm_compute in Hrun. injection Hrun as _ Hw. subst w'.
    split; [assumption |]. split; vm_compute; reflexivity.
Defined.

(** The claim that a booking is all-or-nothing fails when the store
    rejects the debit: the appointment has been saved and stays, the
    balance is not debited, and the request is answered 500. *)
Lemma bookAppointment_orphan_appointment :
  let w := Scenario.failAfter 1 (Scenario.world [] (ymd 2025 6 2)) in
  let r := bookAppointment 1 basic Scenario.june10 "Havnegade 1, Odense" None w in
  fst r = Returned (json 500 [("error", JStr "Failed to book appointment")])
  /\ appointments (db (snd r))
     = [Scenario.booking 1 Scenario.june10 "14:00-16:00" 14
          AppointmentModel.confirmed]
  /\ totalPoints <$> users (db (snd r)) !! 1%nat = Some 2000
  /\ log (snd r) = [AppointmentSaved 0 AppointmentModel.confirmed].
Proof. vm_compute. repeat split; reflexivity. Qed.

(** ** The balance never goes below zero *)












Lemma nonNegative_scenario appts today :
  nonNegativeBalances (db (Scenario.world appts today)).
Proof.
  intros i v. cbn [db users Scenario.world].
  intros Hv. apply lookup_insert_Some in Hv as [[_ <-] | [_ Hv]]; [cbn; lia |].
  apply lookup_singleton_Some in Hv as [_ <-]. cbn. lia.
Qed.




End Ledger.
